(** * Auto-Editor: the silence walk and the edit run of [auto_editor.py]

    A shallow embedding of [iterate_silence_segments] and
    [edit_video_and_audio] together with the properties stated about them.

    Conventions of the embedding.
    - Python integers are [Z]; every timestamp is a number of milliseconds.
    - The module-level settings are read by the two functions and never
      assigned by them (neither has a [global] statement), so they are passed
      as one record [Globals].
    - [print], the collaborators of moviepy, pydub and [os], and exceptions are
      modelled by a state-and-exception monad [M] over a [World] that holds the
      state of the outside world and the trace of what the program did to it.
    - A moviepy clip is represented by the source it was cut from and the
      bounds it was requested with; the bounds and the duration of the video
      are kept in milliseconds (the code passes them in seconds, divided by
      1000).
    - The audio buffer of pydub is an interface, [AudioBuffer]. *)

From Stdlib Require Import ZArith List Lia Bool String Ascii.
Import ListNotations.
Local Open Scope Z_scope.

(** ** Program arguments (lines 6-14) *)

Record Globals : Type := {
  SILENCE_THRESHOLD : Z;
  PADDING_LEFT : Z;
  PADDING_RIGHT : Z;
  SILENCE_DB_THRESHOLD : Z;
  VERBOSE : bool;
  DEBUG : bool;
  INPUT_PATH : string;
  OUTPUT_PATH : string
}.

(** ** Constants (lines 16-21) *)

Definition AUDIO_CODEC : string := "pcm_s16le".
Definition OUTPUT_VIDEO_CODEC : string := "libx264".
Definition OUTPUT_AUDIO_CODEC : string := "aac".
Definition TEMP_AUDIO_PATH : string := "temp_audio.wav".
Definition TEMP_EDITED_AUDIO_PATH : string := "temp_edited_audio.wav".

(** ** Media objects *)

(** The object returned by [VideoFileClip(path)]: the walk reads its
    [duration] only. *)
Record Video : Type := {
  filename : string;
  duration : Z
}.

(** The object returned by [video.subclip(t_start, t_end)]. *)
Record Clip : Type := {
  source : Video;
  t_start : Z;
  t_end : Z
}.

Definition subclip (video : Video) (a b : Z) : Clip :=
  {| source := video; t_start := a; t_end := b |}.

(** The video assembled by [concatenate_videoclips] and [set_audio]. *)
Inductive FinalVideo : Type :=
| Concatenated (cs : list Clip)
| WithAudio (v : FinalVideo) (audio_path : string).

(** The audio buffer ([pydub.AudioSegment]) as the walk uses it:
    [audio_segment[lo:hi]] with either bound possibly left out, [+] and
    [len]. *)
Class AudioBuffer (Audio : Type) : Type := {
  slice : Audio -> option Z -> option Z -> Audio;
  concat : Audio -> Audio -> Audio;
  len : Audio -> Z
}.

(** ** What the program prints and calls *)

(** One printed line: the template and the values formatted into it. *)
Inductive Line : Type :=
| Starting_edit
| Silences_found (n : nat)
| Will_add_clip (from_ms to_ms length_ms : Z)
| Will_cut_silence (from_ms to_ms length_ms : Z)
| Would_end_up (audio_ms silence_ms : Z)
| Would_be_shorter (silence_ms : Z)
| Could_not_clean_up.

Inductive Event : Type :=
| Printed (l : Line)
| Open_video (path : string)
| Detect_silence (min_silence_len silence_thresh : Z)
| Ask_user
| Concatenate (n : nat)
| Export_audio (path : string)
| Open_audio (path : string)
| Render_video (path : string)
| Remove (path : string).

Inductive Exn : Type :=
| OSError
| AttributeError
| CollaboratorError (what : string).

Inductive Outcome (A : Type) : Type :=
| Returned (a : A)
| Raised (e : Exn).

Arguments Returned {A} a.
Arguments Raised {A} e.

(** What [debug_print] and [verbose_print] receive as their first argument:
    a template with its arguments, or the list of silent ranges that line 93
    passes where a string is expected. *)
Inductive PrintArg : Type :=
| Template (l : Line)
| Ranges (rs : list (Z * Z)).

(** ASCII model of [str.strip] and [str.upper], for the answer read at
    line 100: on an answer made of ASCII characters they are the functions of
    Python; the properties that read the answer take such an answer. *)
Definition is_space (c : ascii) : bool :=
  let n := nat_of_ascii c in
  ((9 <=? n) && (n <=? 13) || (28 <=? n) && (n <=? 32))%nat.

Fixpoint lstrip (s : string) : string :=
  match s with
  | String c s' => if is_space c then lstrip s' else s
  | EmptyString => EmptyString
  end.

Fixpoint rstrip (s : string) : string :=
  match s with
  | String c s' =>
      match rstrip s' with
      | EmptyString => if is_space c then EmptyString else String c EmptyString
      | t => String c t
      end
  | EmptyString => EmptyString
  end.

Definition strip (s : string) : string := rstrip (lstrip s).

Definition upper_char (c : ascii) : ascii :=
  let n := nat_of_ascii c in
  if ((97 <=? n) && (n <=? 122))%nat then ascii_of_nat (n - 32) else c.

Fixpoint upper (s : string) : string :=
  match s with
  | String c s' => String (upper_char c) (upper s')
  | EmptyString => EmptyString
  end.

Section Program.

(** The state of everything outside the program: files, terminal, media
    libraries. *)
Variable Ext : Type.

Context {Audio : Type} `{AudioBuffer Audio}.

Record World : Type := {
  ext : Ext;
  trace : list Event
}.

Definition M (A : Type) : Type := World -> Outcome A * World.

Definition ret {A : Type} (a : A) : M A := fun w => (Returned a, w).

Definition bind {A B : Type} (m : M A) (k : A -> M B) : M B :=
  fun w =>
    match m w with
    | (Returned a, w') => k a w'
    | (Raised e, w') => (Raised e, w')
    end.

Definition raise {A : Type} (e : Exn) : M A := fun w => (Raised e, w).

Definition note (w : World) (evs : list Event) : World :=
  {| ext := ext w; trace := trace w ++ evs |}.

Definition emit (ev : Event) : M unit :=
  fun w => (Returned tt, note w [ev]).

(** A call to a collaborator: noted in the trace, then run on the outside
    world. *)
Definition call {A : Type} (ev : Event) (c : Ext -> Outcome A * Ext) : M A :=
  fun w =>
    let (o, e') := c (ext w) in
    (o, {| ext := e'; trace := trace w ++ [ev] |}).

(** [try: body except OSError: handler] *)
Definition try_except_OSError (body handler : M unit) : M unit :=
  fun w =>
    match body w with
    | (Raised OSError, w') => handler w'
    | r => r
    end.

Notation "x <- c1 ;; c2" := (bind c1 (fun x => c2))
  (at level 61, c1 at next level, right associativity).
Notation "c1 ;;; c2" := (bind c1 (fun _ => c2))
  (at level 61, right associativity).

Fixpoint for_each {A S : Type} (body : S -> A -> M S) (l : list A) (s : S) : M S :=
  match l with
  | [] => ret s
  | x :: xs => s' <- body s x ;; for_each body xs s'
  end.

Variable g : Globals.

Definition print (l : Line) : M unit := emit (Printed l).

(** [string.format( *args)] of lines 29 and 36: a list has no [format]. *)
Definition print_formatted (a : PrintArg) : M unit :=
  match a with
  | Template l => print l
  | Ranges _ => raise AttributeError
  end.

(** Lines 24-29. *)
Definition verbose_print (a : PrintArg) : M unit :=
  if VERBOSE g then print_formatted a else ret tt.

(** Lines 31-36. *)
Definition debug_print (a : PrintArg) : M unit :=
  if DEBUG g then print_formatted a else ret tt.

(** The local variables of [iterate_silence_segments] (lines 52-57). *)
Record Locals : Type := {
  last_end : Z;
  clips : list Clip;
  adjusted_audio : Audio;
  silence_amount : Z
}.

(** Lines 60-76, the body of the loop.  The test of line 62 compares the two
    timestamps divided by 1000 as floating-point numbers, which orders them
    as the integers are ordered for every timestamp a float holds exactly. *)
Definition loop_body (pretend : bool) (video : Video) (audio_segment : Audio)
    (st : Locals) (r : Z * Z) : M Locals :=
  let '(start, end_) := r in
  let end_clip := Z.max (last_end st) (start - PADDING_LEFT g) in
  st1 <- (if last_end st <? end_clip then
            debug_print (Template (Will_add_clip (last_end st) end_clip
                                     (end_clip - last_end st))) ;;;
            if negb pretend then
              ret {| last_end := last_end st;
                     clips := clips st ++ [subclip video (last_end st) end_clip];
                     adjusted_audio :=
                       concat (adjusted_audio st)
                         (slice audio_segment (Some (last_end st))
                            (Some (Z.max (last_end st) (start - PADDING_LEFT g))));
                     silence_amount := silence_amount st |}
            else ret st
          else ret st) ;;
  let silence_duration := end_ - end_clip in
  debug_print (Template (Will_cut_silence end_clip (end_ - PADDING_RIGHT g)
                           silence_duration)) ;;;
  if SILENCE_THRESHOLD g <? silence_duration then
    let last_end' := end_ - PADDING_RIGHT g in
    ret {| last_end := last_end';
           clips := clips st1;
           adjusted_audio := adjusted_audio st1;
           silence_amount := silence_amount st1 + (last_end' - end_clip) |}
  else
    ret {| last_end := end_clip;
           clips := clips st1;
           adjusted_audio := adjusted_audio st1;
           silence_amount := silence_amount st1 |}.

(** Lines 52-57. *)
Definition initial_locals (audio_segment : Audio) : Locals :=
  {| last_end := 0;
     clips := [];
     adjusted_audio := slice audio_segment None (Some 0);
     silence_amount := 0 |}.

(** Lines 78-81. *)
Definition append_remaining (video : Video) (audio_segment : Audio)
    (st : Locals) : Locals :=
  {| last_end := last_end st;
     clips := clips st ++ [subclip video (last_end st) (duration video)];
     adjusted_audio :=
       concat (adjusted_audio st) (slice audio_segment (Some (last_end st)) None);
     silence_amount := silence_amount st |}.

(** Lines 47-82. *)
Definition iterate_silence_segments (silent_ranges : list (Z * Z))
    (video : Video) (audio_segment : Audio) (pretend : bool)
    : M (list Clip * Audio * Z) :=
  st <- for_each (loop_body pretend video audio_segment) silent_ranges
          (initial_locals audio_segment) ;;
  let st := if negb pretend then append_remaining video audio_segment st else st in
  ret (clips st, adjusted_audio st, silence_amount st).

(** ** The collaborators of the edit run

    Each acts on the outside world and returns or raises.  [os.path.isfile]
    only reads the world, and [os.remove] either succeeds or raises
    [OSError]. *)
Record Env : Type := {
  VideoFileClip : string -> Ext -> Outcome Video * Ext;
  detect_silence : Audio -> Z -> Z -> Ext -> Outcome (list (Z * Z)) * Ext;
  input : Ext -> Outcome string * Ext;
  concatenate_videoclips : list Clip -> Ext -> Outcome unit * Ext;
  export : Audio -> string -> Ext -> Outcome unit * Ext;
  AudioFileClip : string -> Ext -> Outcome unit * Ext;
  write_videofile : FinalVideo -> string -> string -> string -> Ext -> Outcome unit * Ext;
  isfile : string -> Ext -> bool;
  remove : string -> Ext -> bool * Ext
}.

Variable env : Env.

Definition os_path_isfile (path : string) : M bool :=
  fun w => (Returned (isfile env path (ext w)), w).

Definition os_remove (path : string) : M unit :=
  call (Remove path)
    (fun e => let (ok, e') := remove env path e in
              (if ok then Returned tt else Raised OSError, e')).

(** Lines 103-117, the branch taken when the user answers Y. *)
Definition render (silent_ranges : list (Z * Z)) (video : Video)
    (audio_segment : Audio) : M unit :=
  r <- iterate_silence_segments silent_ranges video audio_segment false ;;
  let '(clips, adjusted_audio, _) := r in
  call (Concatenate (List.length clips)) (concatenate_videoclips env clips) ;;;
  let final_video := Concatenated clips in
  call (Export_audio TEMP_EDITED_AUDIO_PATH)
    (export env adjusted_audio TEMP_EDITED_AUDIO_PATH) ;;;
  call (Open_audio TEMP_EDITED_AUDIO_PATH)
    (AudioFileClip env TEMP_EDITED_AUDIO_PATH) ;;;
  let final_video := WithAudio final_video TEMP_EDITED_AUDIO_PATH in
  call (Render_video (OUTPUT_PATH g))
    (write_videofile env final_video (OUTPUT_PATH g)
       OUTPUT_VIDEO_CODEC OUTPUT_AUDIO_CODEC).

(** Lines 86-117: everything the run does before it removes its temporary
    files. *)
Definition estimate_and_render (video_path : string) (audio_segment : Audio) : M unit :=
  verbose_print (Template Starting_edit) ;;;
  video <- call (Open_video video_path) (VideoFileClip env video_path) ;;
  silent_ranges <-
    call (Detect_silence (SILENCE_THRESHOLD g) (SILENCE_DB_THRESHOLD g))
      (detect_silence env audio_segment (SILENCE_THRESHOLD g)
         (SILENCE_DB_THRESHOLD g)) ;;
  verbose_print (Template (Silences_found (List.length silent_ranges))) ;;;
  debug_print (Ranges silent_ranges) ;;;
  r <- iterate_silence_segments silent_ranges video audio_segment true ;;
  let silence_amount := snd r in
  print (Would_end_up (len audio_segment) silence_amount) ;;;
  print (Would_be_shorter silence_amount) ;;;
  user_response <- call Ask_user (input env) ;;
  let user_response := upper (strip user_response) in
  if String.eqb user_response "Y" then
    render silent_ranges video audio_segment
  else ret tt.

(** Lines 118-124. *)
Definition remove_temp_files : M unit :=
  try_except_OSError
    (b <- os_path_isfile TEMP_EDITED_AUDIO_PATH ;;
     (if b then os_remove TEMP_EDITED_AUDIO_PATH else ret tt) ;;;
     b <- os_path_isfile TEMP_AUDIO_PATH ;;
     if b then os_remove TEMP_AUDIO_PATH else ret tt)
    (print Could_not_clean_up).

(** Lines 84-124. *)
Definition edit_video_and_audio (video_path : string) (audio_segment : Audio) : M unit :=
  estimate_and_render video_path audio_segment ;;;
  remove_temp_files.

End Program.

Arguments ext {Ext} w.
Arguments trace {Ext} w.
Arguments note {Ext} w evs.
Arguments ret {Ext A} a w.
Arguments bind {Ext A B} m k w.
Arguments for_each {Ext A S} body l s w.
Arguments Locals Audio : clear implicits.
Arguments last_end {Audio} l.
Arguments clips {Audio} l.
Arguments adjusted_audio {Audio} l.
Arguments silence_amount {Audio} l.
Arguments debug_print {Ext} g a w.
Arguments verbose_print {Ext} g a w.
Arguments loop_body {Ext Audio _} g pretend video audio_segment st r w.
Arguments iterate_silence_segments {Ext Audio _} g silent_ranges video audio_segment pretend w.
Arguments render {Ext Audio _} g env silent_ranges video audio_segment w.
Arguments estimate_and_render {Ext Audio _} g env video_path audio_segment w.
Arguments Env Ext Audio : clear implicits.
Arguments VideoFileClip {Ext Audio} e path x.
Arguments detect_silence {Ext Audio} e audio min_silence_len silence_thresh x.
Arguments input {Ext Audio} e x.
Arguments concatenate_videoclips {Ext Audio} e cs x.
Arguments export {Ext Audio} e audio path x.
Arguments AudioFileClip {Ext Audio} e path x.
Arguments write_videofile {Ext Audio} e v path codec audio_codec x.
Arguments isfile {Ext Audio} e path x.
Arguments remove {Ext Audio} e path x.
Arguments remove_temp_files {Ext Audio} env w.
Arguments os_remove {Ext Audio} env path w.
Arguments os_path_isfile {Ext Audio} env path w.
Arguments edit_video_and_audio {Ext Audio _} g env video_path audio_segment w.

(** ** Reading a result *)

Definition value_of {A : Type} (o : Outcome A) : option A :=
  match o with
  | Returned a => Some a
  | Raised _ => None
  end.

Definition bounds (c : Clip) : Z * Z := (t_start c, t_end c).

(** The keep segments of a returned plan, as [(start, end)] pairs. *)
Definition kept_segments {Audio : Type} (o : Outcome (list Clip * Audio * Z))
    : option (list (Z * Z)) :=
  option_map (fun r => map bounds (fst (fst r))) (value_of o).

(** The [silence_amount] of a returned plan. *)
Definition silence_removed {Audio : Type} (o : Outcome (list Clip * Audio * Z))
    : option Z :=
  option_map snd (value_of o).


(** ** Well-formed inputs and plans *)

(** Silent ranges in ascending order without overlap, each with
    [lo <= start <= end]. *)
Fixpoint ascending_from (lo : Z) (rs : list (Z * Z)) : bool :=
  match rs with
  | [] => true
  | (s, e) :: rest => (lo <=? s) && (s <=? e) && ascending_from e rest
  end.

Definition well_formed (rs : list (Z * Z)) : bool := ascending_from 0 rs.

Definition within (duration : Z) (rs : list (Z * Z)) : bool :=
  forallb (fun r => snd r <=? duration) rs.

Definition non_negative_config (g : Globals) : bool :=
  (0 <=? SILENCE_THRESHOLD g) && (0 <=? PADDING_LEFT g) && (0 <=? PADDING_RIGHT g).

(** Keep segments in ascending order without overlap, each of non-negative
    length and inside [[lo, duration]]. *)
Fixpoint segments_from (lo duration : Z) (segs : list (Z * Z)) : bool :=
  match segs with
  | [] => true
  | (a, b) :: rest =>
      (lo <=? a) && (a <=? b) && (b <=? duration) && segments_from b duration rest
  end.

Definition segments_ok (duration : Z) (segs : list (Z * Z)) : bool :=
  segments_from 0 duration segs.


(** ** Concrete collaborators, for running the program on examples *)

(** Modelled from the spec: the audio buffer of the audio library, which is
    not under src/; a decoded buffer that supports slicing by the range
    [[startMs, endMs)], concatenation and the empty buffer.  One sample per
    millisecond, positions clamped to the buffer. *)
Definition Samples : Type := list Z.

Definition clamp (n x : Z) : Z := Z.max 0 (Z.min n x).

Definition samples_slice (a : Samples) (lo hi : option Z) : Samples :=
  let n := Z.of_nat (List.length a) in
  let lo := clamp n (match lo with Some x => x | None => 0 end) in
  let hi := clamp n (match hi with Some x => x | None => n end) in
  firstn (Z.to_nat (hi - lo)) (skipn (Z.to_nat lo) a).

#[export] Instance Samples_buffer : AudioBuffer Samples := {
  slice := samples_slice;
  concat := @app Z;
  len := fun a => Z.of_nat (List.length a)
}.

(** An outside world small enough to run: the files that exist, the files
    that cannot be removed, what the user types, what the detector reports,
    how long the video is, and whether writing the output succeeds. *)
Record Script : Type := {
  files : list string;
  locked : list string;
  answer : string;
  detected : list (Z * Z);
  video_ms : Z;
  output_ok : bool
}.

Definition has (l : list string) (p : string) : bool := existsb (String.eqb p) l.

Definition with_files (s : Script) (fs : list string) : Script :=
  {| files := fs; locked := locked s; answer := answer s;
     detected := detected s; video_ms := video_ms s; output_ok := output_ok s |}.

Definition scripted : Env Script Samples := {|
  VideoFileClip := fun path s =>
    (Returned {| filename := path; duration := video_ms s |}, s);
  detect_silence := fun _ _ _ s => (Returned (detected s), s);
  input := fun s => (Returned (answer s), s);
  concatenate_videoclips := fun _ s => (Returned tt, s);
  export := fun _ path s => (Returned tt, with_files s (path :: files s));
  AudioFileClip := fun _ s => (Returned tt, s);
  write_videofile := fun _ path _ _ s =>
    if output_ok s then (Returned tt, with_files s (path :: files s))
    else (Raised (CollaboratorError "write_videofile"), s);
  isfile := fun path s => has (files s) path;
  remove := fun path s =>
    if has (locked s) path then (false, s)
    else (true, with_files s (filter (fun q => negb (String.eqb path q)) (files s)))
|}.

Definition defaults : Globals :=
  {| SILENCE_THRESHOLD := 700; PADDING_LEFT := 250; PADDING_RIGHT := 250;
     SILENCE_DB_THRESHOLD := -40; VERBOSE := false; DEBUG := false;
     INPUT_PATH := "in.mp4"; OUTPUT_PATH := "out.mp4" |}.

Definition settings (threshold padding_left padding_right : Z) : Globals :=
  {| SILENCE_THRESHOLD := threshold; PADDING_LEFT := padding_left;
     PADDING_RIGHT := padding_right;
     SILENCE_DB_THRESHOLD := -40; VERBOSE := false; DEBUG := false;
     INPUT_PATH := "in.mp4"; OUTPUT_PATH := "out.mp4" |}.

Definition video_of (ms : Z) : Video := {| filename := "in.mp4"; duration := ms |}.

Definition silent_world : World unit := {| ext := tt; trace := [] |}.

Definition plan_of (g : Globals) (rs : list (Z * Z)) (ms : Z) (pretend : bool)
    : Outcome (list Clip * Samples * Z) :=
  fst (iterate_silence_segments g rs (video_of ms) (repeat 0 (Z.to_nat ms)) pretend
         silent_world).

(** ** The values a run computes

    The walk touches the world only to print debug lines, so what it returns
    is a function of its arguments; [loop_body_run] and
    [iterate_silence_segments_run] below show that the monadic code returns
    exactly these values. *)

Definition walk_step {Audio : Type} `{AudioBuffer Audio} (g : Globals)
    (pretend : bool) (video : Video) (audio_segment : Audio)
    (st : Locals Audio) (r : Z * Z) : Locals Audio :=
  let '(start, end_) := r in
  let end_clip := Z.max (last_end st) (start - PADDING_LEFT g) in
  let st1 :=
    if (last_end st <? end_clip) && negb pretend then
      {| last_end := last_end st;
         clips := clips st ++ [subclip video (last_end st) end_clip];
         adjusted_audio :=
           concat (adjusted_audio st)
             (slice audio_segment (Some (last_end st)) (Some end_clip));
         silence_amount := silence_amount st |}
    else st in
  if SILENCE_THRESHOLD g <? end_ - end_clip then
    {| last_end := end_ - PADDING_RIGHT g;
       clips := clips st1;
       adjusted_audio := adjusted_audio st1;
       silence_amount := silence_amount st1 + (end_ - PADDING_RIGHT g - end_clip) |}
  else
    {| last_end := end_clip;
       clips := clips st1;
       adjusted_audio := adjusted_audio st1;
       silence_amount := silence_amount st1 |}.

Definition walk {Audio : Type} `{AudioBuffer Audio} (g : Globals)
    (pretend : bool) (video : Video) (audio_segment : Audio)
    (rs : list (Z * Z)) (st : Locals Audio) : Locals Audio :=
  fold_left (walk_step g pretend video audio_segment) rs st.

Definition plan {Audio : Type} `{AudioBuffer Audio} (g : Globals)
    (rs : list (Z * Z)) (video : Video) (audio_segment : Audio) (pretend : bool)
    : list Clip * Audio * Z :=
  let st := walk g pretend video audio_segment rs (initial_locals audio_segment) in
  let st := if negb pretend then append_remaining video audio_segment st else st in
  (clips st, adjusted_audio st, silence_amount st).

(** The part of the loop state that decides the cuts: [last_end] and
    [silence_amount]. *)
Definition cut_step (g : Globals) (c : Z * Z) (r : Z * Z) : Z * Z :=
  let '(le, acc) := c in
  let '(start, end_) := r in
  let end_clip := Z.max le (start - PADDING_LEFT g) in
  if SILENCE_THRESHOLD g <? end_ - end_clip then
    (end_ - PADDING_RIGHT g, acc + (end_ - PADDING_RIGHT g - end_clip))
  else (end_clip, acc).

Definition cuts (g : Globals) (rs : list (Z * Z)) (c : Z * Z) : Z * Z :=
  fold_left (cut_step g) rs c.

(** The end of the last keep segment of a list, [lo] when there is none. *)
Definition last_bound (lo : Z) (segs : list (Z * Z)) : Z :=
  fold_left (fun _ s => snd s) segs lo.

(** The invariant of the materializing walk; [prev] is the end of the silence
    handled last. *)
Definition walk_inv {Audio : Type} (video : Video) (st : Locals Audio) (prev : Z)
    : Prop :=
  0 <= last_end st <= prev
  /\ prev <= duration video
  /\ segments_from 0 (duration video) (map bounds (clips st)) = true
  /\ last_bound 0 (map bounds (clips st)) <= last_end st.


(** The outside world once the first temporary file has been dealt with,
    unless its removal failed. *)
Definition after_first_removal {Ext Audio : Type} (env : Env Ext Audio) (x : Ext)
    : option Ext :=
  if isfile env TEMP_EDITED_AUDIO_PATH x then
    let (ok, x') := remove env TEMP_EDITED_AUDIO_PATH x in
    if ok then Some x' else None
  else Some x.

Definition is_removal (e : Event) : bool :=
  match e with
  | Remove _ => true
  | _ => false
  end.

(** A run of the scripted world: the raw temporary audio has been extracted,
    the detector reports one silence in a video of three seconds. *)
Definition studio (ans : string) (ok : bool) (lock : list string) : World Script :=
  {| ext := {| files := [TEMP_AUDIO_PATH]; locked := lock; answer := ans;
               detected := [(1000, 2000)]; video_ms := 3000; output_ok := ok |};
     trace := [] |}.

Definition studio_run (ans : string) (ok : bool) (lock : list string)
    : Outcome unit * World Script :=
  edit_video_and_audio defaults scripted "in.mp4" (repeat 0 3000)
    (studio ans ok lock).

(** ** Measures of a plan *)

Definition total_length (segs : list (Z * Z)) : Z :=
  fold_right (fun s acc => (snd s - fst s) + acc) 0 segs.


(** Segments that follow one another without gap from [lo] to [hi]. *)
Fixpoint chained (lo : Z) (segs : list (Z * Z)) (hi : Z) : Prop :=
  match segs with
  | [] => lo = hi
  | (a, b) :: rest => a = lo /\ chained b rest hi
  end.

(** Every silence, with the left padding added, is at most the threshold
    long. *)
Definition all_short (g : Globals) (rs : list (Z * Z)) : bool :=
  forallb (fun r => snd r - fst r + PADDING_LEFT g <=? SILENCE_THRESHOLD g) rs.


(** ** Predicates on the trace *)

Definition is_render_call (e : Event) : bool :=
  match e with
  | Concatenate _ | Export_audio _ | Open_audio _ | Render_video _ => true
  | _ => false
  end.

Definition is_printed (e : Event) : bool :=
  match e with
  | Printed _ => true
  | _ => false
  end.

(** The event touches no file but the two temporary files, the input, and
    the output: removals hit a temporary file only, the audio is exported to
    and read back from the temporary edited file only, and the video is
    written to [OUTPUT_PATH] only. *)
Definition own_files_only (g : Globals) (e : Event) : bool :=
  match e with
  | Remove p => String.eqb p TEMP_EDITED_AUDIO_PATH || String.eqb p TEMP_AUDIO_PATH
  | Export_audio p => String.eqb p TEMP_EDITED_AUDIO_PATH
  | Open_audio p => String.eqb p TEMP_EDITED_AUDIO_PATH
  | Render_video p => String.eqb p (OUTPUT_PATH g)
  | _ => true
  end.

(** Whatever world [m] is run in, it only appends events that satisfy [P] to
    the trace. *)
Definition adds_only {Ext A : Type} (P : Event -> bool) (m : M Ext A) : Prop :=
  forall w : World Ext,
  exists evs : list Event,
    trace (snd (m w)) = trace w ++ evs /\ forallb P evs = true.

(** Settings with debug output on. *)
Definition debugging : Globals :=
  {| SILENCE_THRESHOLD := 700; PADDING_LEFT := 250; PADDING_RIGHT := 250;
     SILENCE_DB_THRESHOLD := -40; VERBOSE := false; DEBUG := true;
     INPUT_PATH := "in.mp4"; OUTPUT_PATH := "out.mp4" |}.

(** The scripted world with a user who answers n whatever happens. *)
Definition refusing : Env Script Samples := {|
  VideoFileClip := VideoFileClip scripted;
  detect_silence := detect_silence scripted;
  input := fun s => (Returned "n"%string, s);
  concatenate_videoclips := concatenate_videoclips scripted;
  export := export scripted;
  AudioFileClip := AudioFileClip scripted;
  write_videofile := write_videofile scripted;
  isfile := isfile scripted;
  remove := remove scripted
|}.

(** ** The command line (lines 130-153)

    What [parse_args] hands to [main]: the two positional paths, and for each
    option the string given on the command line, if any.  argparse gives an
    absent option its [default] and applies [type] to the string of a present
    one. *)
Record Args : Type := {
  input_path : string;
  output_path : string;
  silence_threshold : option string;
  padding_left : option string;
  padding_right : option string;
  silence_db_threshold : option string;
  verbose : option string;
  debug : option string
}.

(** [bool(s)] for a string: true unless the string is empty. *)
Definition py_bool (s : string) : bool := negb (String.eqb s "").

Definition typed {T : Type} (type : string -> option T) (default : T)
    (given : option string) : option T :=
  match given with
  | None => Some default
  | Some s => type s
  end.

(** Lines 130-153: the settings [main] assigns from the arguments, or [None]
    when the parser rejects the command line.  [int] is Python's [int] on a
    string, [None] where it raises. *)
Definition parse_args (int : string -> option Z) (a : Args) : option Globals :=
  match typed int 700 (silence_threshold a),
        typed int 250 (padding_left a),
        typed int 250 (padding_right a),
        typed int (-40) (silence_db_threshold a),
        typed (fun s => Some (py_bool s)) false (verbose a),
        typed (fun s => Some (py_bool s)) false (debug a) with
  | Some t, Some l, Some r, Some d, Some v, Some dbg =>
      Some {| SILENCE_THRESHOLD := t; PADDING_LEFT := l; PADDING_RIGHT := r;
              SILENCE_DB_THRESHOLD := d; VERBOSE := v; DEBUG := dbg;
              INPUT_PATH := input_path a; OUTPUT_PATH := output_path a |}
  | _, _, _, _, _, _ => None
  end.

(** A command line with the two paths and [--debug False]. *)
Definition debug_False : Args :=
  {| input_path := "in.mp4"; output_path := "out.mp4";
     silence_threshold := None; padding_left := None; padding_right := None;
     silence_db_threshold := None; verbose := None; debug := Some "False"%string |}.

(** ** Requests the media library takes as they are

    [video.subclip] raises when its start lies after the end of the video and
    counts a negative start from the end; a request with
    [0 <= t_start <= t_end <= duration] is cut as it stands, and [subclip]
    above is then the clip the library returns. *)
Definition in_video (video : Video) (c : Clip) : Prop :=
  0 <= t_start c /\ t_start c <= t_end c /\ t_end c <= duration video.

(** Every silence starts, the left padding deducted, no later than
    [duration]. *)
Definition starts_within (g : Globals) (duration : Z) (rs : list (Z * Z)) : bool :=
  forallb (fun r => fst r - PADDING_LEFT g <=? duration) rs.

(** The right padding reaches back no further than time 0 from the end of
    any silence. *)
Definition right_padding_within (g : Globals) (rs : list (Z * Z)) : bool :=
  forallb (fun r => PADDING_RIGHT g <=? snd r) rs.

(** The answer is made of ASCII characters, on which [strip] and [upper]
    above are those of Python. *)
Fixpoint is_ascii (s : string) : bool :=
  match s with
  | String c s' => (nat_of_ascii c <? 128)%nat && is_ascii s'
  | EmptyString => true
  end.

(** * Properties *)

Section Runs.

Context {Ext : Type} {Audio : Type} `{AudioBuffer Audio}.

Lemma note_nil (w : World Ext) : note w [] = w.
Proof. destruct w; unfold note; simpl; now rewrite app_nil_r. Qed.

Lemma note_note (w : World Ext) (a b : list Event) :
  note (note w a) b = note w (a ++ b).
Proof. unfold note; simpl; now rewrite app_assoc. Qed.

Lemma debug_print_run (g : Globals) (l : Line) (w : World Ext) :
  exists evs, debug_print g (Template l) w = (Returned tt, note w evs).
Proof.
  unfold debug_print. destruct (DEBUG g).
  - exists [Printed l]. reflexivity.
  - exists []. now rewrite note_nil.
Qed.

Lemma loop_body_run (g : Globals) (pretend : bool) (video : Video)
    (audio_segment : Audio) (st : Locals Audio) (r : Z * Z) (w : World Ext) :
  exists evs,
    loop_body g pretend video audio_segment st r w
    = (Returned (walk_step g pretend video audio_segment st r), note w evs).
Proof.
  destruct r as [start end_]. unfold loop_body, walk_step, bind.
  set (end_clip := Z.max (last_end st) (start - PADDING_LEFT g)).
  destruct (last_end st <? end_clip) eqn:Hlt; simpl.
  - destruct (debug_print_run g (Will_add_clip (last_end st) end_clip
                                   (end_clip - last_end st)) w) as [e1 ->].
    destruct pretend; simpl; unfold ret.
    + destruct (debug_print_run g (Will_cut_silence end_clip
                  (end_ - PADDING_RIGHT g) (end_ - end_clip)) (note w e1)) as [e2 ->].
      exists (e1 ++ e2). rewrite note_note.
      now destruct (SILENCE_THRESHOLD g <? end_ - end_clip).
    + destruct (debug_print_run g (Will_cut_silence end_clip
                  (end_ - PADDING_RIGHT g) (end_ - end_clip)) (note w e1)) as [e2 ->].
      exists (e1 ++ e2). rewrite note_note.
      now destruct (SILENCE_THRESHOLD g <? end_ - end_clip).
  - unfold ret.
    destruct (debug_print_run g (Will_cut_silence end_clip
                (end_ - PADDING_RIGHT g) (end_ - end_clip)) w) as [e2 ->].
    exists e2. now destruct (SILENCE_THRESHOLD g <? end_ - end_clip).
Qed.

Lemma for_each_loop_run (g : Globals) (pretend : bool) (video : Video)
    (audio_segment : Audio) (rs : list (Z * Z)) :
  forall (st : Locals Audio) (w : World Ext),
  exists evs,
    for_each (loop_body g pretend video audio_segment) rs st w
    = (Returned (walk g pretend video audio_segment rs st), note w evs).
Proof.
  induction rs as [|r rs IH]; intros st w.
  - exists []. simpl. unfold ret. now rewrite note_nil.
  - simpl. unfold bind.
    destruct (loop_body_run g pretend video audio_segment st r w) as [e1 ->].
    destruct (IH (walk_step g pretend video audio_segment st r) (note w e1))
      as [e2 ->].
    exists (e1 ++ e2). now rewrite note_note.
Qed.

Lemma iterate_silence_segments_run (g : Globals) (rs : list (Z * Z))
    (video : Video) (audio_segment : Audio) (pretend : bool) (w : World Ext) :
  exists evs,
    iterate_silence_segments g rs video audio_segment pretend w
    = (Returned (plan g rs video audio_segment pretend), note w evs).
Proof.
  unfold iterate_silence_segments, bind.
  destruct (for_each_loop_run g pretend video audio_segment rs
              (initial_locals audio_segment) w) as [evs ->].
  exists evs. reflexivity.
Qed.

End Runs.

(** ** The walk as a function *)

Section Walk.

Context {Audio : Type} `{AudioBuffer Audio}.

Variable g : Globals.
Variable video : Video.
Variable audio_segment : Audio.

Lemma walk_step_cuts (pretend : bool) (st : Locals Audio) (r : Z * Z) :
  (last_end (walk_step g pretend video audio_segment st r),
   silence_amount (walk_step g pretend video audio_segment st r))
  = cut_step g (last_end st, silence_amount st) r.
Proof.
  destruct r as [s e]. unfold walk_step, cut_step.
  destruct (SILENCE_THRESHOLD g <? e - Z.max (last_end st) (s - PADDING_LEFT g));
    destruct ((last_end st <? Z.max (last_end st) (s - PADDING_LEFT g)) && negb pretend);
    reflexivity.
Qed.

Lemma walk_cuts (pretend : bool) (rs : list (Z * Z)) :
  forall st : Locals Audio,
  (last_end (walk g pretend video audio_segment rs st),
   silence_amount (walk g pretend video audio_segment rs st))
  = cuts g rs (last_end st, silence_amount st).
Proof.
  induction rs as [|r rs IH]; intros st; [reflexivity|].
  unfold walk, cuts in *. simpl. rewrite IH. now rewrite walk_step_cuts.
Qed.

Lemma plan_silence_amount (pretend : bool) (rs : list (Z * Z)) :
  snd (plan g rs video audio_segment pretend) = snd (cuts g rs (0, 0)).
Proof.
  unfold plan.
  pose proof (walk_cuts pretend rs (initial_locals audio_segment)) as E.
  simpl in E. rewrite <- E. now destruct pretend.
Qed.

Lemma walk_step_pretend_clips (st : Locals Audio) (r : Z * Z) :
  clips (walk_step g true video audio_segment st r) = clips st
  /\ adjusted_audio (walk_step g true video audio_segment st r) = adjusted_audio st.
Proof.
  destruct r as [s e]. unfold walk_step. rewrite andb_false_r.
  now destruct (SILENCE_THRESHOLD g <? e - Z.max (last_end st) (s - PADDING_LEFT g)).
Qed.

Lemma walk_pretend_clips (rs : list (Z * Z)) :
  forall st : Locals Audio,
  clips (walk g true video audio_segment rs st) = clips st
  /\ adjusted_audio (walk g true video audio_segment rs st) = adjusted_audio st.
Proof.
  induction rs as [|r rs IH]; intros st; [now split|].
  unfold walk in *. simpl.
  destruct (IH (walk_step g true video audio_segment st r)) as [-> ->].
  apply walk_step_pretend_clips.
Qed.

End Walk.

(** ** Keep segments *)

Lemma last_bound_cons (lo : Z) (s : Z * Z) (segs : list (Z * Z)) :
  last_bound lo (s :: segs) = last_bound (snd s) segs.
Proof. reflexivity. Qed.

Lemma last_bound_snoc (lo : Z) (segs : list (Z * Z)) (s : Z * Z) :
  last_bound lo (segs ++ [s]) = snd s.
Proof. unfold last_bound. now rewrite fold_left_app. Qed.

Lemma segments_from_app (duration : Z) (xs ys : list (Z * Z)) :
  forall lo,
  segments_from lo duration (xs ++ ys)
  = segments_from lo duration xs && segments_from (last_bound lo xs) duration ys.
Proof.
  induction xs as [|[a b] xs IH]; intros lo; [reflexivity|].
  cbn [app segments_from]. rewrite IH, last_bound_cons. cbn [snd].
  now rewrite !andb_assoc.
Qed.

(** Segments accepted by [segments_from] are pairwise disjoint and in order:
    an earlier one ends no later than a later one starts. *)
Lemma segments_from_lower (duration : Z) (segs : list (Z * Z)) :
  forall lo, segments_from lo duration segs = true ->
  Forall (fun s => lo <= fst s /\ fst s <= snd s /\ snd s <= duration) segs.
Proof.
  induction segs as [|[a b] segs IH]; intros lo Hs; [constructor|].
  simpl in Hs. repeat (apply andb_prop in Hs; destruct Hs as [Hs ?]).
  constructor.
  - simpl. lia.
  - eapply Forall_impl; [|apply (IH b); assumption]. simpl. intros s. lia.
Qed.

Lemma segments_from_ordered (duration : Z) (segs : list (Z * Z)) :
  forall lo, segments_from lo duration segs = true ->
  forall (i j : nat) (x y : Z * Z),
    (i < j)%nat -> nth_error segs i = Some x -> nth_error segs j = Some y ->
    snd x <= fst y.
Proof.
  induction segs as [|[a b] segs IH]; intros lo Hs i j x y Hij Hi Hj.
  - destruct i; discriminate.
  - simpl in Hs. repeat (apply andb_prop in Hs; destruct Hs as [Hs ?]).
    destruct j as [|j]; [lia|]. simpl in Hj.
    destruct i as [|i].
    + simpl in Hi. injection Hi as <-. simpl.
      pose proof (segments_from_lower duration segs b ltac:(assumption)) as F.
      rewrite Forall_forall in F. apply nth_error_In in Hj.
      specialize (F y Hj). lia.
    + simpl in Hi.
      apply (IH b ltac:(assumption) i j x y); [lia | assumption | assumption].
Qed.

(** ** The invariant of the materializing walk

    Holds as long as a cut never moves [last_end] backwards, which
    [PADDING_RIGHT <= SILENCE_THRESHOLD + 1] guarantees: a silence is cut
    only when longer than the threshold. *)

Section Invariant.

Context {Audio : Type} `{AudioBuffer Audio}.

Variable g : Globals.
Variable video : Video.
Variable audio_segment : Audio.

Hypothesis left_nonneg : 0 <= PADDING_LEFT g.
Hypothesis right_nonneg : 0 <= PADDING_RIGHT g.
Hypothesis right_small : PADDING_RIGHT g <= SILENCE_THRESHOLD g + 1.

Lemma walk_step_inv (st : Locals Audio) (prev s e : Z) :
  walk_inv video st prev -> prev <= s -> s <= e -> e <= duration video ->
  walk_inv video (walk_step g false video audio_segment st (s, e)) e.
Proof.
  intros (Hle & Hprev & Hseg & Hlast) Hs He Hd.
  unfold walk_inv, walk_step. rewrite andb_true_r.
  set (ec := Z.max (last_end st) (s - PADDING_LEFT g)).
  assert (Hec : last_end st <= ec /\ ec <= s) by (unfold ec; lia).
  destruct (last_end st <? ec) eqn:Hlt;
    destruct (SILENCE_THRESHOLD g <? e - ec) eqn:Hcut; simpl;
    try (apply Z.ltb_lt in Hlt); try (apply Z.ltb_ge in Hlt);
    try (apply Z.ltb_lt in Hcut); try (apply Z.ltb_ge in Hcut);
    rewrite ?map_app; simpl;
    rewrite ?segments_from_app, ?last_bound_snoc; simpl;
    rewrite ?Hseg; simpl;
    repeat split; try lia;
    repeat (apply andb_true_intro; split); try (apply Z.leb_le; lia).
Qed.

Lemma walk_inv_preserved (rs : list (Z * Z)) :
  forall (st : Locals Audio) (prev : Z),
  walk_inv video st prev ->
  ascending_from prev rs = true -> within (duration video) rs = true ->
  exists prev', walk_inv video (walk g false video audio_segment rs st) prev'.
Proof.
  induction rs as [|[s e] rs IH]; intros st prev Hinv Hasc Hin.
  - exists prev. exact Hinv.
  - simpl in Hasc, Hin.
    apply andb_prop in Hasc. destruct Hasc as [Hasc Hrest].
    apply andb_prop in Hasc. destruct Hasc as [Hs He].
    apply andb_prop in Hin. destruct Hin as [Hd Hin].
    apply Z.leb_le in Hs, He, Hd.
    apply (IH (walk_step g false video audio_segment st (s, e)) e);
      [apply (walk_step_inv st prev); assumption | assumption | assumption].
Qed.

(** The segments of the materializing plan are in order, disjoint, of
    non-negative length and inside the video. *)
Lemma plan_segments_ok (rs : list (Z * Z)) :
  0 <= duration video ->
  well_formed rs = true -> within (duration video) rs = true ->
  segments_ok (duration video)
    (map bounds (fst (fst (plan g rs video audio_segment false)))) = true.
Proof.
  intros Hd Hwf Hin.
  destruct (walk_inv_preserved rs (initial_locals audio_segment) 0)
    as (prev & Hle & Hprev & Hseg & Hlast); try assumption.
  { unfold walk_inv. simpl. repeat split; lia. }
  unfold plan, segments_ok. simpl.
  rewrite map_app, segments_from_app, Hseg. simpl.
  repeat (apply andb_true_intro; split); try reflexivity; apply Z.leb_le; lia.
Qed.



End Invariant.

(** ** Two walks that differ in the threshold only *)

Section Threshold.

Variable g : Globals.
Variable threshold' : Z.

Hypothesis raised : SILENCE_THRESHOLD g <= threshold'.
Hypothesis right_small : PADDING_RIGHT g <= SILENCE_THRESHOLD g + 1.



End Threshold.

(** * The claims about the planning walk *)

(** C2, as the code has it: for the silence list [(1000, 2000)] with
    threshold 700, paddings 250 and 250 and duration 3000, the materializing
    walk produces exactly the keep segments [0,750) and [1750,3000), and both
    passes return a silence amount of 1000, the length of the removed span
    [750,1750). *)
Theorem single_long_silence_plan {Ext Audio : Type} `{AudioBuffer Audio}
    (g : Globals) (video : Video) (audio_segment : Audio) (w : World Ext) :
  SILENCE_THRESHOLD g = 700 -> PADDING_LEFT g = 250 -> PADDING_RIGHT g = 250 ->
  duration video = 3000 ->
  kept_segments
    (fst (iterate_silence_segments g [(1000, 2000)] video audio_segment false w))
  = Some [(0, 750); (1750, 3000)]
  /\ silence_removed
       (fst (iterate_silence_segments g [(1000, 2000)] video audio_segment false w))
     = Some 1000
  /\ silence_removed
       (fst (iterate_silence_segments g [(1000, 2000)] video audio_segment true w))
     = Some 1000.
Proof.
  intros HT HL HR HD.
  destruct (iterate_silence_segments_run g [(1000, 2000)] video audio_segment
              false w) as [e1 ->].
  destruct (iterate_silence_segments_run g [(1000, 2000)] video audio_segment
              true w) as [e2 ->].
  unfold kept_segments, silence_removed, plan, walk, walk_step. simpl.
  rewrite HT, HL, HR, HD. simpl. repeat split; reflexivity.
Qed.

(** The run of the claim itself, with the default settings. *)
Lemma single_long_silence_plan_witness :
  (SILENCE_THRESHOLD defaults = 700 /\ PADDING_LEFT defaults = 250
   /\ PADDING_RIGHT defaults = 250 /\ duration (video_of 3000) = 3000)
  /\ kept_segments (plan_of defaults [(1000, 2000)] 3000 false)
  = Some [(0, 750); (1750, 3000)]
  /\ silence_removed (plan_of defaults [(1000, 2000)] 3000 false) = Some 1000
  /\ silence_removed (plan_of defaults [(1000, 2000)] 3000 true) = Some 1000.
Proof.
  split; [repeat split; reflexivity|].
  apply (single_long_silence_plan defaults (video_of 3000)
           (repeat 0 (Z.to_nat 3000)) silent_world); reflexivity.
Defined.

(** C2 as stated fails: on that input the walk does not return a silence
    amount of 500. *)
Lemma single_long_silence_not_500 :
  ~ (kept_segments (plan_of defaults [(1000, 2000)] 3000 false)
     = Some [(0, 750); (1750, 3000)]
     /\ silence_removed (plan_of defaults [(1000, 2000)] 3000 false) = Some 500).
Proof. intros [_ E]. vm_compute in E. discriminate E. Qed.

(** C1, at a run the program accepts ([--padding_right 2000], one silence of
    800 ms in a video of 5000 ms): the list is ascending, inside the video and
    the settings are non-negative, yet the keep segments are [0,2750) and
    [1800,5000), which overlap. *)
Theorem right_padding_overlap :
  well_formed [(3000, 3800)] = true
  /\ within 5000 [(3000, 3800)] = true
  /\ non_negative_config (settings 700 250 2000) = true
  /\ kept_segments (plan_of (settings 700 250 2000) [(3000, 3800)] 5000 false)
     = Some [(0, 2750); (1800, 5000)]
  /\ segments_ok 5000 [(0, 2750); (1800, 5000)] = false.
Proof. vm_compute. repeat split; reflexivity. Qed.

(** C4, at the same run: the only iteration takes [silence_amount] from 0 to
    -950, and -950 is what the walk returns. *)
Theorem right_padding_negative_amount :
  well_formed [(3000, 3800)] = true
  /\ non_negative_config (settings 700 250 2000) = true
  /\ silence_amount (initial_locals (repeat 0 5000)) = 0
  /\ silence_amount
       (walk_step (settings 700 250 2000) true (video_of 5000)
          (repeat 0 5000) (initial_locals (repeat 0 5000)) (3000, 3800))
     = -950
  /\ fst (loop_body (settings 700 250 2000) true (video_of 5000)
            (repeat 0 5000) (initial_locals (repeat 0 5000)) (3000, 3800)
            silent_world)
     = Returned
         (walk_step (settings 700 250 2000) true (video_of 5000)
            (repeat 0 5000) (initial_locals (repeat 0 5000)) (3000, 3800))
  /\ silence_removed (plan_of (settings 700 250 2000) [(3000, 3800)] 5000 true)
     = Some (-950).
Proof. vm_compute. repeat split; reflexivity. Qed.


(** C9: the non-materializing walk is deterministic.  Whatever the state of
    the outside world it is started in, and in particular when it is run a
    second time after a first run, it returns the same value for the same
    silence list, video, audio and settings: the same segment list and the
    same silence amount. *)
Theorem pretend_walk_deterministic {Ext Audio : Type} `{AudioBuffer Audio}
    (g : Globals) (rs : list (Z * Z)) (video : Video) (audio_segment : Audio)
    (w1 w2 : World Ext) :
  exists r : list Clip * Audio * Z,
    fst (iterate_silence_segments g rs video audio_segment true w1) = Returned r
    /\ fst (iterate_silence_segments g rs video audio_segment true w2) = Returned r
    /\ fst (iterate_silence_segments g rs video audio_segment true
              (snd (iterate_silence_segments g rs video audio_segment true w1)))
       = Returned r.
Proof.
  exists (plan g rs video audio_segment true).
  destruct (iterate_silence_segments_run g rs video audio_segment true w1)
    as [e1 E1].
  destruct (iterate_silence_segments_run g rs video audio_segment true w2)
    as [e2 E2].
  rewrite E1, E2. simpl.
  destruct (iterate_silence_segments_run g rs video audio_segment true (note w1 e1))
    as [e3 E3].
  rewrite E3. auto.
Qed.


(** C5, as the code has it: the walk checks nothing.  For every silence list,
    every setting and every video, well formed or not, and from any state of
    the outside world, the pretend pass raises nothing: it returns no clip,
    the empty audio and the silence amount its arithmetic gives, and its only
    effect is what it prints. *)
Theorem walk_returns_on_every_input {Ext Audio : Type} `{AudioBuffer Audio}
    (g : Globals) (rs : list (Z * Z)) (video : Video) (audio_segment : Audio)
    (w : World Ext) :
  exists evs : list Event,
    iterate_silence_segments g rs video audio_segment true w
    = (Returned ([], slice audio_segment None (Some 0), snd (cuts g rs (0, 0))),
       note w evs).
Proof.
  destruct (iterate_silence_segments_run g rs video audio_segment true w)
    as [evs E].
  exists evs. rewrite E.
  rewrite <- (plan_silence_amount g video audio_segment true rs).
  unfold plan. cbn [negb].
  destruct (walk_pretend_clips g video audio_segment rs
              (initial_locals audio_segment)) as [-> ->].
  reflexivity.
Qed.

(** C5 as stated fails: a silence list that is unsorted and overlapping,
    with negative threshold and paddings and a duration below every interval
    end, is not rejected; the pretend pass returns a silence amount of
    1010. *)
Lemma malformed_input_is_planned :
  well_formed [(2000, 3000); (1000, 2500)] = false
  /\ non_negative_config (settings (-1) (-10) (-20)) = false
  /\ within 100 [(2000, 3000); (1000, 2500)] = false
  /\ plan_of (settings (-1) (-10) (-20)) [(2000, 3000); (1000, 2500)] 100 true
     = Returned ([], [], 1010).
Proof. vm_compute. repeat split; reflexivity. Qed.

(** C7, as the code has it: for a single silence [(s, e)] whose candidate cut
    length [e - cutEnd], with [cutEnd = max 0 (s - PADDING_LEFT)], is at most
    the threshold, nothing is cut and the silence amount is 0; the
    materializing walk keeps the whole of [0, duration), as the two adjacent
    segments [0, cutEnd) and [cutEnd, duration) when [cutEnd > 0] and as the
    single segment [0, duration) when [cutEnd = 0]; this for a [cutEnd] no
    later than the end of the video, where both segments are requests the
    media library takes as they are. *)
Theorem short_silence_is_kept {Ext Audio : Type} `{AudioBuffer Audio}
    (g : Globals) (video : Video) (audio_segment : Audio) (s e : Z)
    (w : World Ext) :
  e - Z.max 0 (s - PADDING_LEFT g) <= SILENCE_THRESHOLD g ->
  Z.max 0 (s - PADDING_LEFT g) <= duration video ->
  let cut_end := Z.max 0 (s - PADDING_LEFT g) in
  kept_segments
    (fst (iterate_silence_segments g [(s, e)] video audio_segment false w))
  = Some (if 0 <? cut_end
          then [(0, cut_end); (cut_end, duration video)]
          else [(0, duration video)])
  /\ silence_removed
       (fst (iterate_silence_segments g [(s, e)] video audio_segment false w))
     = Some 0
  /\ silence_removed
       (fst (iterate_silence_segments g [(s, e)] video audio_segment true w))
     = Some 0.
Proof.
  intros Hshort Hinside cut_end.
  destruct (iterate_silence_segments_run g [(s, e)] video audio_segment
              false w) as [e1 ->].
  destruct (iterate_silence_segments_run g [(s, e)] video audio_segment
              true w) as [e2 ->].
  unfold kept_segments, silence_removed, plan, walk, walk_step. simpl.
  fold cut_end.
  assert (Hno : (SILENCE_THRESHOLD g <? e - cut_end) = false)
    by (apply Z.ltb_ge; exact Hshort).
  rewrite Hno, andb_false_r.
  destruct (0 <? cut_end) eqn:Hpos; simpl.
  - assert (E : Z.max 0 (s - PADDING_LEFT g) = cut_end) by reflexivity.
    repeat split; reflexivity.
  - apply Z.ltb_ge in Hpos.
    assert (E : cut_end = 0) by (unfold cut_end in *; lia).
    rewrite E. repeat split; reflexivity.
Qed.

(** The silence (1000,1300) under the default settings: candidate length
    550, cut end 750. *)
Lemma short_silence_is_kept_witness :
  (1300 - Z.max 0 (1000 - PADDING_LEFT defaults) <= SILENCE_THRESHOLD defaults
   /\ Z.max 0 (1000 - PADDING_LEFT defaults) <= duration (video_of 3000))
  /\ kept_segments (plan_of defaults [(1000, 1300)] 3000 false)
     = Some [(0, 750); (750, 3000)]
  /\ silence_removed (plan_of defaults [(1000, 1300)] 3000 false) = Some 0
  /\ silence_removed (plan_of defaults [(1000, 1300)] 3000 true) = Some 0.
Proof.
  split; [split; vm_compute; discriminate|].
  apply (short_silence_is_kept defaults (video_of 3000)
           (repeat 0 (Z.to_nat 3000)) 1000 1300 silent_world);
    vm_compute; discriminate.
Defined.

(** C7 as stated fails: for the silence (1000,1300) with threshold 700 the
    candidate cut length is 550, yet the materializing walk yields two keep
    segments, not the single segment [0, duration), and the pretend walk
    records none. *)
Lemma short_silence_two_segments :
  1300 - Z.max 0 (1000 - PADDING_LEFT defaults) <= SILENCE_THRESHOLD defaults
  /\ kept_segments (plan_of defaults [(1000, 1300)] 3000 false)
     <> Some [(0, 3000)]
  /\ kept_segments (plan_of defaults [(1000, 1300)] 3000 true)
     <> Some [(0, 3000)].
Proof.
  split; [vm_compute; discriminate|].
  split; vm_compute; discriminate.
Qed.




(** * The edit run *)

Section Cleanup.

Context {Ext : Type} {Audio : Type} `{AudioBuffer Audio}.

Variable g : Globals.
Variable env : Env Ext Audio.

(** What lines 118-124 do, from any state of the world. *)
Lemma remove_temp_files_run (w : World Ext) :
  exists (w' : World Ext) (evs : list Event),
    remove_temp_files env w = (Returned tt, w')
    /\ trace w' = trace w ++ evs
    /\ (isfile env TEMP_EDITED_AUDIO_PATH (ext w) = true ->
        In (Remove TEMP_EDITED_AUDIO_PATH) evs)
    /\ (forall x, after_first_removal env (ext w) = Some x ->
        isfile env TEMP_AUDIO_PATH x = true -> In (Remove TEMP_AUDIO_PATH) evs)
    /\ (after_first_removal env (ext w) = None ->
        In (Printed Could_not_clean_up) evs)
    /\ (forall x, after_first_removal env (ext w) = Some x ->
        isfile env TEMP_AUDIO_PATH x = true ->
        fst (remove env TEMP_AUDIO_PATH x) = false ->
        In (Printed Could_not_clean_up) evs).
Proof.
  unfold remove_temp_files, try_except_OSError, bind, os_path_isfile, os_remove,
    call, after_first_removal, print, emit, note, ret.
  destruct (isfile env TEMP_EDITED_AUDIO_PATH (ext w)) eqn:F1.
  - destruct (remove env TEMP_EDITED_AUDIO_PATH (ext w)) as [ok1 x1] eqn:R1.
    destruct ok1; cbn [ext trace].
    + destruct (isfile env TEMP_AUDIO_PATH x1) eqn:F2; cbn [ext trace].
      * destruct (remove env TEMP_AUDIO_PATH x1) as [ok2 x2] eqn:R2.
        destruct ok2; cbn [ext trace].
        -- eexists; exists [Remove TEMP_EDITED_AUDIO_PATH; Remove TEMP_AUDIO_PATH].
           split; [reflexivity|]. cbn [trace]. rewrite <- app_assoc.
           split; [reflexivity|].
           repeat split; intros; try discriminate; simpl; auto.
           match goal with E : Some _ = Some _ |- _ => injection E as <- end.
           rewrite R2 in *. discriminate.
        -- eexists; exists [Remove TEMP_EDITED_AUDIO_PATH; Remove TEMP_AUDIO_PATH;
                            Printed Could_not_clean_up].
           split; [reflexivity|]. cbn [trace]. rewrite <- !app_assoc.
           split; [reflexivity|].
           repeat split; intros; try discriminate; simpl; auto.
      * eexists; exists [Remove TEMP_EDITED_AUDIO_PATH].
        split; [reflexivity|]. cbn [trace]. split; [reflexivity|].
        repeat split; intros; try discriminate; simpl; auto;
          match goal with E : Some _ = Some _ |- _ => injection E as <- end;
          congruence.
    + eexists; exists [Remove TEMP_EDITED_AUDIO_PATH; Printed Could_not_clean_up].
      split; [reflexivity|]. cbn [trace]. rewrite <- app_assoc.
      split; [reflexivity|].
      repeat split; intros; try discriminate; simpl; auto.
  - destruct (isfile env TEMP_AUDIO_PATH (ext w)) eqn:F2; cbn [ext trace].
    + destruct (remove env TEMP_AUDIO_PATH (ext w)) as [ok2 x2] eqn:R2.
      destruct ok2; cbn [ext trace].
      * eexists; exists [Remove TEMP_AUDIO_PATH].
        split; [reflexivity|]. cbn [trace]. split; [reflexivity|].
        repeat split; intros; try discriminate; simpl; auto.
        match goal with E : Some _ = Some _ |- _ => injection E as <- end.
        rewrite R2 in *. discriminate.
      * eexists; exists [Remove TEMP_AUDIO_PATH; Printed Could_not_clean_up].
        split; [reflexivity|]. cbn [trace]. rewrite <- app_assoc.
        split; [reflexivity|].
        repeat split; intros; try discriminate; simpl; auto.
    + exists w, []. split; [reflexivity|]. rewrite app_nil_r.
      split; [reflexivity|].
      repeat split; intros; try discriminate;
        match goal with E : Some _ = Some _ |- _ => injection E as <- end;
        congruence.
Qed.

(** An exception raised before line 118 leaves the function at once. *)
Lemma edit_failure_propagates (video_path : string) (audio_segment : Audio)
    (w w1 : World Ext) (e : Exn) :
  estimate_and_render g env video_path audio_segment w = (Raised e, w1) ->
  edit_video_and_audio g env video_path audio_segment w = (Raised e, w1).
Proof. intros E. unfold edit_video_and_audio, bind. now rewrite E. Qed.

End Cleanup.

(** C6, as the code has it.  The removal of the temporary files is the last
    statement of the function and is reached only when nothing before it
    raised.  An exception raised earlier, by a collaborator of the
    materialization for one, leaves the function at once and nothing is
    removed.  On a run that gets there, as every run the user declines does,
    the edited audio is removed if it exists; then, unless that removal
    failed, the raw audio is removed if it exists; a failed removal is
    reported by the warning line and the run returns normally. *)
Theorem cleanup_after_completed_run {Ext Audio : Type} `{AudioBuffer Audio}
    (g : Globals) (env : Env Ext Audio) (video_path : string)
    (audio_segment : Audio) (w : World Ext) :
  (forall (e : Exn) (w1 : World Ext),
     estimate_and_render g env video_path audio_segment w = (Raised e, w1) ->
     edit_video_and_audio g env video_path audio_segment w = (Raised e, w1))
  /\ (forall (u : unit) (w1 : World Ext),
       estimate_and_render g env video_path audio_segment w = (Returned u, w1) ->
       exists (w2 : World Ext) (evs : list Event),
         edit_video_and_audio g env video_path audio_segment w = (Returned tt, w2)
         /\ trace w2 = trace w1 ++ evs
         /\ (isfile env TEMP_EDITED_AUDIO_PATH (ext w1) = true ->
             In (Remove TEMP_EDITED_AUDIO_PATH) evs)
         /\ (forall x, after_first_removal env (ext w1) = Some x ->
             isfile env TEMP_AUDIO_PATH x = true ->
             In (Remove TEMP_AUDIO_PATH) evs)
         /\ (after_first_removal env (ext w1) = None ->
             In (Printed Could_not_clean_up) evs)
         /\ (forall x, after_first_removal env (ext w1) = Some x ->
             isfile env TEMP_AUDIO_PATH x = true ->
             fst (remove env TEMP_AUDIO_PATH x) = false ->
             In (Printed Could_not_clean_up) evs)).
Proof.
  split.
  - intros e w1 E. now apply edit_failure_propagates.
  - intros u w1 E.
    destruct (remove_temp_files_run env w1) as (w2 & evs & R & P).
    exists w2, evs. split; [|exact P].
    unfold edit_video_and_audio, bind. rewrite E. exact R.
Qed.

(** A run the user declines: both temporary files exist, both removals are
    attempted, and the run returns. *)
Lemma cleanup_after_completed_run_witness :
  estimate_and_render defaults scripted "in.mp4" (repeat 0 3000)
    (studio " n " true [])
  = (Returned tt,
     snd (estimate_and_render defaults scripted "in.mp4" (repeat 0 3000)
            (studio " n " true [])))
  /\ exists (w2 : World Script) (evs : list Event),
       studio_run " n " true [] = (Returned tt, w2)
       /\ trace w2
          = trace (snd (estimate_and_render defaults scripted "in.mp4"
                          (repeat 0 3000) (studio " n " true []))) ++ evs
       /\ In (Remove TEMP_AUDIO_PATH) evs.
Proof.
  split; [reflexivity|].
  destruct (proj2 (cleanup_after_completed_run defaults scripted "in.mp4"
                     (repeat 0 3000) (studio " n " true []))
              tt _ eq_refl)
    as (w2 & evs & R & T & _ & P & _).
  exists w2, evs. split; [exact R|]. split; [exact T|].
  apply (P (ext (studio " n " true []))); reflexivity.
Defined.

(** C6 as stated fails: the user accepts, writing the output raises, and the
    run ends with that exception; both temporary files are on disk and no
    removal has been attempted. *)
Lemma failed_render_keeps_temp_files :
  fst (studio_run "y" false []) = Raised (CollaboratorError "write_videofile")
  /\ isfile scripted TEMP_AUDIO_PATH (ext (snd (studio_run "y" false []))) = true
  /\ isfile scripted TEMP_EDITED_AUDIO_PATH (ext (snd (studio_run "y" false [])))
     = true
  /\ existsb is_removal (trace (snd (studio_run "y" false []))) = false.
Proof. vm_compute. repeat split; reflexivity. Qed.

(** * Where the right padding stays within a cut

    A silence is cut only when its candidate length exceeds the threshold, so
    with [PADDING_RIGHT <= SILENCE_THRESHOLD + 1] line 73 never moves
    [last_end] below [end_clip]; the keep segments are then in order and the
    silence amount only grows. *)

Section SmallRightPadding.

Context {Ext : Type} {Audio : Type} `{AudioBuffer Audio}.

Variable g : Globals.
Variable video : Video.
Variable audio_segment : Audio.

Hypothesis right_small : PADDING_RIGHT g <= SILENCE_THRESHOLD g + 1.

(** With the right padding at most the threshold plus one, non-negative
    settings and an ascending, non-overlapping silence list inside the video,
    the keep segments of the materializing pass are in ascending order,
    disjoint, of non-negative length and inside [[0, duration]]. *)
Lemma plan_keeps_segments_in_order (rs : list (Z * Z)) (w : World Ext) :
  non_negative_config g = true ->
  0 <= duration video ->
  well_formed rs = true -> within (duration video) rs = true ->
  exists segs : list (Z * Z),
    kept_segments
      (fst (iterate_silence_segments g rs video audio_segment false w))
    = Some segs
    /\ segments_ok (duration video) segs = true.
Proof.
  intros Hcfg Hd Hwf Hin.
  unfold non_negative_config in Hcfg.
  apply andb_prop in Hcfg. destruct Hcfg as [Hcfg HR].
  apply andb_prop in Hcfg. destruct Hcfg as [_ HL].
  apply Z.leb_le in HL, HR.
  destruct (iterate_silence_segments_run g rs video audio_segment false w)
    as [evs ->].
  eexists. split; [reflexivity|].
  now apply plan_segments_ok.
Qed.



End SmallRightPadding.

(** * A declined run reaches the cleanup *)

Section Declined.

Context {Ext : Type} {Audio : Type} `{AudioBuffer Audio}.

Variable g : Globals.
Variable env : Env Ext Audio.

Lemma verbose_print_run (l : Line) (w : World Ext) :
  exists evs, verbose_print g (Template l) w = (Returned tt, note w evs)
              /\ ext (note w evs) = ext w.
Proof.
  unfold verbose_print. destruct (VERBOSE g).
  - exists [Printed l]. split; reflexivity.
  - exists []. rewrite note_nil. split; reflexivity.
Qed.

(** When the video opens, the detector and the prompt answer, debug output is
    off and the answer, made of ASCII characters, is not Y once stripped and
    put in upper case, lines 86-117 return without rendering. *)
Lemma declined_run_returns (video_path : string) (audio_segment : Audio)
    (w : World Ext) (video : Video) (rs : list (Z * Z)) (ans : string)
    (x1 x2 x3 : Ext) :
  DEBUG g = false ->
  VideoFileClip env video_path (ext w) = (Returned video, x1) ->
  detect_silence env audio_segment (SILENCE_THRESHOLD g) (SILENCE_DB_THRESHOLD g) x1
  = (Returned rs, x2) ->
  input env x2 = (Returned ans, x3) ->
  is_ascii ans = true ->
  String.eqb (upper (strip ans)) "Y" = false ->
  exists w1 : World Ext,
    estimate_and_render g env video_path audio_segment w = (Returned tt, w1)
    /\ ext w1 = x3.
Proof.
  intros HD HV HS HI HA HN.
  unfold estimate_and_render, bind.
  destruct (verbose_print_run Starting_edit w) as (e0 & -> & X0).
  unfold call at 1. rewrite X0, HV.
  unfold call at 1. cbn [ext]. rewrite HS.
  match goal with
  | |- context [verbose_print g (Template ?l) ?w0] =>
      destruct (verbose_print_run l w0) as (e1 & -> & X1)
  end.
  unfold debug_print at 1. rewrite HD. unfold ret at 1.
  match goal with
  | |- context [iterate_silence_segments g rs video audio_segment true ?w0] =>
      destruct (iterate_silence_segments_run g rs video audio_segment true w0)
        as (e2 & ->)
  end.
  unfold print, emit, call. cbn [ext note trace]. rewrite HI, HN.
  unfold ret. eexists. split; reflexivity.
Qed.

End Declined.

(** * Further properties of the walk *)

Section Plan.

Context {Audio : Type} `{AudioBuffer Audio}.

Variable g : Globals.
Variable video : Video.
Variable audio_segment : Audio.

Lemma total_length_app (xs ys : list (Z * Z)) :
  total_length (xs ++ ys) = total_length xs + total_length ys.
Proof.
  induction xs as [|x xs IH]; simpl; [reflexivity|]. rewrite IH. lia.
Qed.

(** What has been kept plus what has been removed is the position reached. *)
Lemma walk_step_balance (st : Locals Audio) (r : Z * Z) :
  let st' := walk_step g false video audio_segment st r in
  total_length (map bounds (clips st')) + silence_amount st' - last_end st'
  = total_length (map bounds (clips st)) + silence_amount st - last_end st.
Proof.
  destruct r as [s e]. unfold walk_step. rewrite andb_true_r.
  set (ec := Z.max (last_end st) (s - PADDING_LEFT g)).
  assert (Hec : last_end st <= ec) by (unfold ec; lia).
  destruct (last_end st <? ec) eqn:Hlt;
    destruct (SILENCE_THRESHOLD g <? e - ec); simpl;
    try (apply Z.ltb_ge in Hlt);
    rewrite ?map_app, ?total_length_app; simpl; lia.
Qed.

Lemma walk_balance (rs : list (Z * Z)) :
  forall st : Locals Audio,
  let st' := walk g false video audio_segment rs st in
  total_length (map bounds (clips st')) + silence_amount st' - last_end st'
  = total_length (map bounds (clips st)) + silence_amount st - last_end st.
Proof.
  induction rs as [|r rs IH]; intros st; [reflexivity|].
  unfold walk in *. cbn [fold_left].
  specialize (IH (walk_step g false video audio_segment st r)). cbv zeta in IH.
  rewrite IH. apply walk_step_balance.
Qed.

Lemma plan_balance (rs : list (Z * Z)) :
  total_length (map bounds (fst (fst (plan g rs video audio_segment false))))
  + snd (plan g rs video audio_segment false)
  = duration video.
Proof.
  pose proof (walk_balance rs (initial_locals audio_segment)) as B.
  cbv zeta in B. unfold plan. simpl in *.
  rewrite map_app, total_length_app. simpl. lia.
Qed.



(** Each iteration adds at most one clip, of positive length. *)
Lemma walk_step_clips (st : Locals Audio) (r : Z * Z) :
  Forall (fun c => t_start c < t_end c) (clips st) ->
  let st' := walk_step g false video audio_segment st r in
  Forall (fun c => t_start c < t_end c) (clips st')
  /\ (List.length (clips st') <= S (List.length (clips st)))%nat.
Proof.
  intros P. destruct r as [s e]. unfold walk_step. rewrite andb_true_r.
  destruct (last_end st <? Z.max (last_end st) (s - PADDING_LEFT g)) eqn:Hlt;
    destruct (SILENCE_THRESHOLD g <? e - Z.max (last_end st) (s - PADDING_LEFT g));
    simpl; rewrite ?length_app; simpl; (split; [|lia]); try exact P;
    apply Forall_app; (split; [exact P|]); constructor; try constructor;
    simpl; now apply Z.ltb_lt.
Qed.

Lemma walk_clips (rs : list (Z * Z)) :
  forall st : Locals Audio,
  Forall (fun c => t_start c < t_end c) (clips st) ->
  let st' := walk g false video audio_segment rs st in
  Forall (fun c => t_start c < t_end c) (clips st')
  /\ (List.length (clips st') <= List.length rs + List.length (clips st))%nat.
Proof.
  induction rs as [|r rs IH]; intros st P; [simpl; split; [exact P | lia]|].
  unfold walk in *. cbn [fold_left].
  destruct (walk_step_clips st r P) as [P1 L1].
  destruct (IH _ P1) as [P2 L2]. split; [exact P2|]. simpl. lia.
Qed.

End Plan.

Section Bounds.

Context {Audio : Type} `{AudioBuffer Audio}.

Variable g : Globals.
Variable video : Video.
Variable audio_segment : Audio.


Lemma chained_snoc (segs : list (Z * Z)) :
  forall lo mid hi, chained lo segs mid -> chained lo (segs ++ [(mid, hi)]) hi.
Proof.
  induction segs as [|[a b] segs IH]; intros lo mid hi C; simpl in *.
  - subst. split; reflexivity.
  - destruct C as [-> C]. split; [reflexivity|]. now apply IH.
Qed.

(** While no silence is cut, the clips follow one another from 0 to
    [last_end] and nothing is removed. *)
Lemma walk_short (rs : list (Z * Z)) :
  all_short g rs = true ->
  forall st : Locals Audio,
  chained 0 (map bounds (clips st)) (last_end st) ->
  let st' := walk g false video audio_segment rs st in
  chained 0 (map bounds (clips st')) (last_end st')
  /\ silence_amount st' = silence_amount st.
Proof.
  induction rs as [|[s e] rs IH]; intros Hs st C; [split; [exact C | reflexivity]|].
  unfold all_short in Hs. cbn [forallb fst snd] in Hs.
  apply andb_prop in Hs. destruct Hs as [Hse Hs]. apply Z.leb_le in Hse.
  unfold walk in *. cbn [fold_left].
  assert (S1 : chained 0
                 (map bounds (clips (walk_step g false video audio_segment st (s, e))))
                 (last_end (walk_step g false video audio_segment st (s, e)))
               /\ silence_amount (walk_step g false video audio_segment st (s, e))
                  = silence_amount st).
  { unfold walk_step. rewrite andb_true_r.
    set (ec := Z.max (last_end st) (s - PADDING_LEFT g)).
    assert (Hno : (SILENCE_THRESHOLD g <? e - ec) = false)
      by (apply Z.ltb_ge; unfold ec; lia).
    rewrite Hno.
    destruct (last_end st <? ec) eqn:Hlt; simpl.
    - rewrite map_app. simpl. split; [|reflexivity].
      now apply chained_snoc.
    - apply Z.ltb_ge in Hlt. assert (E : ec = last_end st) by (unfold ec in *; lia).
      rewrite E. split; [exact C | reflexivity]. }
  destruct S1 as [C1 A1].
  destruct (IH Hs _ C1) as [C2 A2]. split; [exact C2 | lia].
Qed.

(** For an ascending list inside the video and non-negative paddings,
    [last_end] stays at or before the end of the silence handled last, and no
    clip has negative length or ends after the video. *)
Lemma walk_lengths (rs : list (Z * Z)) :
  0 <= PADDING_LEFT g -> 0 <= PADDING_RIGHT g ->
  forall (st : Locals Audio) (prev : Z),
  last_end st <= prev -> prev <= duration video ->
  Forall (fun c => t_start c <= t_end c <= duration video) (clips st) ->
  ascending_from prev rs = true -> within (duration video) rs = true ->
  let st' := walk g false video audio_segment rs st in
  last_end st' <= duration video
  /\ Forall (fun c => t_start c <= t_end c <= duration video) (clips st').
Proof.
  intros HL HR.
  induction rs as [|[s e] rs IH]; intros st prev Hle Hprev P Hasc Hin.
  - simpl. split; [lia | exact P].
  - simpl in Hasc, Hin.
    apply andb_prop in Hasc. destruct Hasc as [Hasc Hrest].
    apply andb_prop in Hasc. destruct Hasc as [Hs He].
    apply andb_prop in Hin. destruct Hin as [Hd Hin].
    apply Z.leb_le in Hs, He, Hd.
    unfold walk in *. cbn [fold_left].
    apply (IH (walk_step g false video audio_segment st (s, e)) e);
      try assumption.
    + unfold walk_step. rewrite andb_true_r.
      destruct (SILENCE_THRESHOLD g <? e - Z.max (last_end st) (s - PADDING_LEFT g));
        simpl; lia.
    + unfold walk_step. rewrite andb_true_r.
      destruct (last_end st <? Z.max (last_end st) (s - PADDING_LEFT g)) eqn:Hlt;
        destruct (SILENCE_THRESHOLD g <? e - Z.max (last_end st) (s - PADDING_LEFT g));
        simpl; try exact P;
        apply Forall_app; (split; [exact P|]); constructor; try constructor;
        simpl; lia.
Qed.

End Bounds.

(** * What a run adds to the trace *)

Section Trace.

Context {Ext : Type}.

Variable P : Event -> bool.

Lemma adds_only_ret {A : Type} (a : A) : adds_only P (@ret Ext A a).
Proof. intros w. exists []. simpl. now rewrite app_nil_r. Qed.

Lemma adds_only_raise {A : Type} (e : Exn) : adds_only P (@raise Ext A e).
Proof. intros w. exists []. simpl. now rewrite app_nil_r. Qed.

Lemma adds_only_emit (ev : Event) : P ev = true -> adds_only P (@emit Ext ev).
Proof. intros Hev w. exists [ev]. simpl. now rewrite Hev. Qed.

Lemma adds_only_call {A : Type} (ev : Event) (c : Ext -> Outcome A * Ext) :
  P ev = true -> adds_only P (call Ext ev c).
Proof.
  intros Hev w. exists [ev]. unfold call. destruct (c (ext w)) as [o x].
  simpl. now rewrite Hev.
Qed.

Lemma adds_only_bind {A B : Type} (m : M Ext A) (k : A -> M Ext B) :
  adds_only P m ->
  (forall a, (exists w, fst (m w) = Returned a) -> adds_only P (k a)) ->
  adds_only P (bind m k).
Proof.
  intros Hm Hk w. unfold bind.
  destruct (Hm w) as (e1 & T1 & F1).
  destruct (m w) as [[a|e] w1] eqn:E; simpl in T1.
  - assert (R : exists w0, fst (m w0) = Returned a)
      by (exists w; now rewrite E).
    destruct (Hk a R w1) as (e2 & T2 & F2).
    exists (e1 ++ e2). rewrite T2, T1, app_assoc, forallb_app, F1, F2.
    split; reflexivity.
  - exists e1. simpl. split; assumption.
Qed.

Lemma adds_only_try (body handler : M Ext unit) :
  adds_only P body -> adds_only P handler ->
  adds_only P (try_except_OSError Ext body handler).
Proof.
  intros Hb Hh w. unfold try_except_OSError.
  destruct (Hb w) as (e1 & T1 & F1).
  destruct (body w) as [[u|[| |what]] w1]; simpl in T1;
    try (exists e1; simpl; split; assumption).
  destruct (Hh w1) as (e2 & T2 & F2).
  exists (e1 ++ e2). rewrite T2, T1, app_assoc, forallb_app, F1, F2.
  split; reflexivity.
Qed.

Lemma adds_only_for_each {A S : Type} (body : S -> A -> M Ext S) (l : list A) :
  (forall s x, adds_only P (body s x)) ->
  forall s, adds_only P (for_each body l s).
Proof.
  intros Hb. induction l as [|x l IH]; intros s; simpl.
  - apply adds_only_ret.
  - apply adds_only_bind; [apply Hb | intros s' _; apply IH].
Qed.

End Trace.

Lemma adds_only_weaken {Ext A : Type} (P Q : Event -> bool) (m : M Ext A) :
  (forall e, P e = true -> Q e = true) -> adds_only P m -> adds_only Q m.
Proof.
  intros PQ Hm w. destruct (Hm w) as (evs & T & F). exists evs.
  split; [exact T|]. rewrite forallb_forall in *. auto.
Qed.

Section TraceOfProgram.

Context {Ext : Type} {Audio : Type} `{AudioBuffer Audio}.

Variable g : Globals.

Lemma print_formatted_prints (a : PrintArg) :
  adds_only is_printed (print_formatted Ext a).
Proof.
  destruct a; simpl; [now apply adds_only_emit | apply adds_only_raise].
Qed.

Lemma debug_print_prints (a : PrintArg) :
  adds_only is_printed (@debug_print Ext g a).
Proof.
  unfold debug_print. destruct (DEBUG g);
    [apply print_formatted_prints | apply adds_only_ret].
Qed.

Lemma verbose_print_prints (a : PrintArg) :
  adds_only is_printed (@verbose_print Ext g a).
Proof.
  unfold verbose_print. destruct (VERBOSE g);
    [apply print_formatted_prints | apply adds_only_ret].
Qed.

Lemma loop_body_prints (pretend : bool) (video : Video) (audio_segment : Audio)
    (st : Locals Audio) (r : Z * Z) :
  adds_only is_printed (@loop_body Ext Audio _ g pretend video audio_segment st r).
Proof.
  destruct r as [s e]. unfold loop_body.
  apply adds_only_bind.
  - destruct (last_end st <? Z.max (last_end st) (s - PADDING_LEFT g));
      [|apply adds_only_ret].
    apply adds_only_bind; [apply debug_print_prints|].
    intros _ _. destruct (negb pretend); apply adds_only_ret.
  - intros st1 _. apply adds_only_bind; [apply debug_print_prints|].
    intros _ _.
    destruct (SILENCE_THRESHOLD g <? e - Z.max (last_end st) (s - PADDING_LEFT g));
      apply adds_only_ret.
Qed.

Lemma iterate_silence_segments_prints (rs : list (Z * Z)) (video : Video)
    (audio_segment : Audio) (pretend : bool) :
  adds_only is_printed
    (@iterate_silence_segments Ext Audio _ g rs video audio_segment pretend).
Proof.
  unfold iterate_silence_segments.
  apply adds_only_bind.
  - apply adds_only_for_each. intros st r. apply loop_body_prints.
  - intros st _. apply adds_only_ret.
Qed.

End TraceOfProgram.

(** * Requests inside the video *)

Section InVideo.

Context {Audio : Type} `{AudioBuffer Audio}.

Variable g : Globals.
Variable video : Video.
Variable audio_segment : Audio.

Lemma segments_ok_in_video (cs : list Clip) :
  segments_ok (duration video) (map bounds cs) = true ->
  Forall (in_video video) cs.
Proof.
  intros Hs. apply segments_from_lower in Hs. rewrite Forall_map in Hs.
  eapply Forall_impl; [|exact Hs]. intros c Hc. unfold in_video. simpl in Hc. lia.
Qed.

(** With a right padding that never reaches before time 0, [last_end] stays
    between 0 and the end of the silence handled last, whatever the
    threshold. *)
Lemma walk_in_video (rs : list (Z * Z)) :
  0 <= PADDING_LEFT g -> 0 <= PADDING_RIGHT g ->
  forall (st : Locals Audio) (prev : Z),
  0 <= last_end st <= prev -> prev <= duration video ->
  Forall (in_video video) (clips st) ->
  ascending_from prev rs = true -> within (duration video) rs = true ->
  right_padding_within g rs = true ->
  let st' := walk g false video audio_segment rs st in
  0 <= last_end st' <= duration video /\ Forall (in_video video) (clips st').
Proof.
  intros HL HR.
  induction rs as [|[s e] rs IH]; intros st prev Hle Hprev P Hasc Hin Hpad.
  - simpl. split; [lia | exact P].
  - simpl in Hasc, Hin. unfold right_padding_within in Hpad.
    cbn [forallb snd] in Hpad.
    apply andb_prop in Hasc. destruct Hasc as [Hasc Hrest].
    apply andb_prop in Hasc. destruct Hasc as [Hs He].
    apply andb_prop in Hin. destruct Hin as [Hd Hin].
    apply andb_prop in Hpad. destruct Hpad as [Hp Hpad].
    apply Z.leb_le in Hs, He, Hd, Hp.
    unfold walk in *. cbn [fold_left].
    apply (IH (walk_step g false video audio_segment st (s, e)) e);
      try assumption.
    + unfold walk_step. rewrite andb_true_r.
      destruct (SILENCE_THRESHOLD g <? e - Z.max (last_end st) (s - PADDING_LEFT g));
        simpl; lia.
    + unfold walk_step. rewrite andb_true_r.
      destruct (last_end st <? Z.max (last_end st) (s - PADDING_LEFT g)) eqn:Hlt;
        destruct (SILENCE_THRESHOLD g <? e - Z.max (last_end st) (s - PADDING_LEFT g));
        simpl; try exact P;
        apply Forall_app; (split; [exact P|]); constructor; try constructor;
        unfold in_video; simpl; lia.
Qed.

(** While no silence is cut and each starts inside the video, [last_end]
    stays between 0 and the end of the video. *)
Lemma walk_short_in_video (rs : list (Z * Z)) :
  all_short g rs = true -> starts_within g (duration video) rs = true ->
  forall st : Locals Audio,
  0 <= last_end st <= duration video ->
  Forall (in_video video) (clips st) ->
  let st' := walk g false video audio_segment rs st in
  0 <= last_end st' <= duration video /\ Forall (in_video video) (clips st').
Proof.
  induction rs as [|[s e] rs IH]; intros Hs Hw st Hle P.
  - simpl. split; [lia | exact P].
  - unfold all_short in Hs. unfold starts_within in Hw.
    cbn [forallb fst snd] in Hs, Hw.
    apply andb_prop in Hs. destruct Hs as [Hse Hs].
    apply andb_prop in Hw. destruct Hw as [Hsw Hw].
    apply Z.leb_le in Hse, Hsw.
    unfold walk in *. cbn [fold_left].
    assert (Hno : (SILENCE_THRESHOLD g
                   <? e - Z.max (last_end st) (s - PADDING_LEFT g)) = false)
      by (apply Z.ltb_ge; lia).
    apply (IH Hs Hw (walk_step g false video audio_segment st (s, e))).
    + unfold walk_step. rewrite andb_true_r, Hno. simpl. lia.
    + unfold walk_step. rewrite andb_true_r, Hno.
      destruct (last_end st <? Z.max (last_end st) (s - PADDING_LEFT g)) eqn:Hlt;
        simpl; try exact P.
      apply Forall_app. split; [exact P|]. constructor; [|constructor].
      unfold in_video. simpl. lia.
Qed.

End InVideo.

(** * Further properties, stated on the code *)

(** What is kept and what is removed add up.  With the right padding at
    most the threshold plus one, non-negative settings and an ascending,
    non-overlapping silence list inside the video, every clip of the
    materializing pass is a request inside the video, the lengths of the
    clips add up to the duration of the video minus the silence amount, and
    that amount is the one the pretend pass returns. *)
Theorem kept_and_removed_add_up {Ext Audio : Type} `{AudioBuffer Audio}
    (g : Globals) (rs : list (Z * Z)) (video : Video) (audio_segment : Audio)
    (w w' : World Ext) :
  PADDING_RIGHT g <= SILENCE_THRESHOLD g + 1 ->
  non_negative_config g = true ->
  0 <= duration video ->
  well_formed rs = true -> within (duration video) rs = true ->
  exists (cs : list Clip) (a : Audio) (n : Z) (w1 : World Ext),
    iterate_silence_segments g rs video audio_segment false w
    = (Returned (cs, a, n), w1)
    /\ Forall (in_video video) cs
    /\ silence_removed
         (fst (iterate_silence_segments g rs video audio_segment true w'))
       = Some n
    /\ total_length (map bounds cs) = duration video - n.
Proof.
  intros Hsmall Hcfg HD Hwf Hin.
  unfold non_negative_config in Hcfg.
  apply andb_prop in Hcfg. destruct Hcfg as [Hcfg HR].
  apply andb_prop in Hcfg. destruct Hcfg as [_ HL].
  apply Z.leb_le in HL, HR.
  destruct (iterate_silence_segments_run g rs video audio_segment false w)
    as [e1 E1].
  destruct (iterate_silence_segments_run g rs video audio_segment true w')
    as [e2 E2].
  pose proof (plan_balance g video audio_segment rs) as B.
  pose proof (plan_silence_amount g video audio_segment false rs) as A1.
  pose proof (plan_silence_amount g video audio_segment true rs) as A2.
  pose proof (plan_segments_ok g video audio_segment HL HR Hsmall rs HD Hwf Hin)
    as S.
  destruct (plan g rs video audio_segment false) as [[cs a] n].
  exists cs, a, n, (note w e1). split; [exact E1|].
  split; [now apply segments_ok_in_video|].
  rewrite E2. unfold silence_removed. cbn [fst snd value_of option_map] in *.
  split; [congruence | lia].
Qed.

(** The default settings on two silences: 2900 ms removed of 5000. *)
Lemma kept_and_removed_add_up_witness :
  (PADDING_RIGHT defaults <= SILENCE_THRESHOLD defaults + 1
   /\ non_negative_config defaults = true
   /\ 0 <= duration (video_of 5000)
   /\ well_formed [(1000, 2000); (2100, 4000)] = true
   /\ within (duration (video_of 5000)) [(1000, 2000); (2100, 4000)] = true)
  /\ exists (cs : list Clip) (a : Samples) (n : Z) (w1 : World unit),
       iterate_silence_segments defaults [(1000, 2000); (2100, 4000)]
         (video_of 5000) (repeat 0 5000) false silent_world
       = (Returned (cs, a, n), w1)
       /\ Forall (in_video (video_of 5000)) cs
       /\ silence_removed
            (fst (iterate_silence_segments defaults [(1000, 2000); (2100, 4000)]
                    (video_of 5000) (repeat 0 5000) true silent_world))
          = Some n
       /\ total_length (map bounds cs) = duration (video_of 5000) - n.
Proof.
  split.
  - repeat split; try reflexivity; vm_compute; discriminate.
  - apply (kept_and_removed_add_up defaults [(1000, 2000); (2100, 4000)]
             (video_of 5000) (repeat 0 5000) silent_world silent_world);
      try reflexivity; vm_compute; discriminate.
Defined.


(** With the right padding at most the threshold plus one, non-negative
    settings and an ascending, non-overlapping silence list inside the video,
    the materializing pass returns at least one clip and at most one per
    silence plus the final one; every clip is a request inside the video,
    every clip but the last has positive length and the last one ends with
    the video. *)
Theorem loop_clips_positive_and_counted {Ext Audio : Type} `{AudioBuffer Audio}
    (g : Globals) (rs : list (Z * Z)) (video : Video) (audio_segment : Audio)
    (w : World Ext) :
  PADDING_RIGHT g <= SILENCE_THRESHOLD g + 1 ->
  non_negative_config g = true ->
  0 <= duration video ->
  well_formed rs = true -> within (duration video) rs = true ->
  exists (cs : list Clip) (final : Clip) (a : Audio) (n : Z) (w1 : World Ext),
    iterate_silence_segments g rs video audio_segment false w
    = (Returned (cs ++ [final], a, n), w1)
    /\ Forall (in_video video) (cs ++ [final])
    /\ Forall (fun c => t_start c < t_end c) cs
    /\ (List.length cs <= List.length rs)%nat
    /\ t_end final = duration video.
Proof.
  intros Hsmall Hcfg HD Hwf Hin.
  unfold non_negative_config in Hcfg.
  apply andb_prop in Hcfg. destruct Hcfg as [Hcfg HR].
  apply andb_prop in Hcfg. destruct Hcfg as [_ HL].
  apply Z.leb_le in HL, HR.
  destruct (iterate_silence_segments_run g rs video audio_segment false w)
    as [e1 E1].
  destruct (walk_clips g video audio_segment rs (initial_locals audio_segment))
    as [P L]; [constructor|].
  simpl in L.
  pose proof (plan_segments_ok g video audio_segment HL HR Hsmall rs HD Hwf Hin)
    as S.
  apply segments_ok_in_video in S.
  eexists. eexists. eexists. eexists. eexists.
  split; [rewrite E1; unfold plan; cbn [negb append_remaining clips]; reflexivity|].
  split; [exact S|].
  split; [exact P|]. split; [lia | reflexivity].
Qed.

(** The default settings on two silences. *)
Lemma loop_clips_positive_and_counted_witness :
  (PADDING_RIGHT defaults <= SILENCE_THRESHOLD defaults + 1
   /\ non_negative_config defaults = true
   /\ 0 <= duration (video_of 5000)
   /\ well_formed [(1000, 2000); (2100, 4000)] = true
   /\ within (duration (video_of 5000)) [(1000, 2000); (2100, 4000)] = true)
  /\ exists (cs : list Clip) (final : Clip) (a : Samples) (n : Z)
            (w1 : World unit),
       iterate_silence_segments defaults [(1000, 2000); (2100, 4000)]
         (video_of 5000) (repeat 0 5000) false silent_world
       = (Returned (cs ++ [final], a, n), w1)
       /\ Forall (in_video (video_of 5000)) (cs ++ [final])
       /\ Forall (fun c => t_start c < t_end c) cs
       /\ (List.length cs <= List.length [(1000, 2000); (2100, 4000)])%nat
       /\ t_end final = duration (video_of 5000).
Proof.
  split.
  - repeat split; try reflexivity; vm_compute; discriminate.
  - apply (loop_clips_positive_and_counted defaults [(1000, 2000); (2100, 4000)]
             (video_of 5000) (repeat 0 5000) silent_world);
      try reflexivity; vm_compute; discriminate.
Defined.

(** For an ascending, non-overlapping silence list inside the video and
    non-negative paddings, with a right padding no longer than the end of
    any silence, every clip of the materializing pass is a request inside the
    video, with [0 <= t_start <= t_end <= duration], whatever the threshold
    and even where the clips overlap. *)
Theorem clips_have_nonnegative_length {Ext Audio : Type} `{AudioBuffer Audio}
    (g : Globals) (rs : list (Z * Z)) (video : Video) (audio_segment : Audio)
    (w : World Ext) :
  0 <= PADDING_LEFT g -> 0 <= PADDING_RIGHT g -> 0 <= duration video ->
  well_formed rs = true -> within (duration video) rs = true ->
  right_padding_within g rs = true ->
  exists (cs : list Clip) (a : Audio) (n : Z) (w1 : World Ext),
    iterate_silence_segments g rs video audio_segment false w
    = (Returned (cs, a, n), w1)
    /\ Forall (in_video video) cs.
Proof.
  intros HL HR HD Hwf Hin Hpad.
  destruct (iterate_silence_segments_run g rs video audio_segment false w)
    as [e1 E1].
  destruct (walk_in_video g video audio_segment rs HL HR
              (initial_locals audio_segment) 0) as [Le P];
    try assumption; try (simpl; lia); [constructor|].
  eexists. eexists. eexists. eexists.
  split; [rewrite E1; unfold plan; cbn [negb append_remaining clips]; reflexivity|].
  apply Forall_app. split; [exact P|].
  constructor; [unfold in_video; simpl; lia | constructor].
Qed.

(** The run with [--padding_right 2000] at which the clips overlap: each is
    still a request inside the video. *)
Lemma clips_have_nonnegative_length_witness :
  (0 <= PADDING_LEFT (settings 700 250 2000)
   /\ 0 <= PADDING_RIGHT (settings 700 250 2000)
   /\ 0 <= duration (video_of 5000)
   /\ well_formed [(3000, 3800)] = true
   /\ within (duration (video_of 5000)) [(3000, 3800)] = true
   /\ right_padding_within (settings 700 250 2000) [(3000, 3800)] = true)
  /\ exists (cs : list Clip) (a : Samples) (n : Z) (w1 : World unit),
       iterate_silence_segments (settings 700 250 2000) [(3000, 3800)]
         (video_of 5000) (repeat 0 5000) false silent_world
       = (Returned (cs, a, n), w1)
       /\ Forall (in_video (video_of 5000)) cs.
Proof.
  split.
  - repeat split; try reflexivity; vm_compute; discriminate.
  - apply (clips_have_nonnegative_length (settings 700 250 2000) [(3000, 3800)]
             (video_of 5000) (repeat 0 5000) silent_world);
      try reflexivity; vm_compute; discriminate.
Defined.


(** When every silence, with the left padding added, is at most the
    threshold long, and each starts, the left padding deducted, no later than
    the end of the video, nothing is cut: the silence amount is 0 in both
    passes, every clip of the materializing pass is a request inside the
    video, and the clips follow one another without gap from 0 to the end of
    the video. *)
Theorem short_silences_are_never_cut {Ext Audio : Type} `{AudioBuffer Audio}
    (g : Globals) (rs : list (Z * Z)) (video : Video) (audio_segment : Audio)
    (w : World Ext) :
  all_short g rs = true ->
  starts_within g (duration video) rs = true ->
  0 <= duration video ->
  (exists (cs : list Clip) (a : Audio) (w1 : World Ext),
     iterate_silence_segments g rs video audio_segment false w
     = (Returned (cs, a, 0), w1)
     /\ Forall (in_video video) cs
     /\ chained 0 (map bounds cs) (duration video))
  /\ silence_removed
       (fst (iterate_silence_segments g rs video audio_segment true w))
     = Some 0.
Proof.
  intros Hs Hw HD.
  destruct (walk_short g video audio_segment rs Hs (initial_locals audio_segment)
              eq_refl) as [C A].
  destruct (walk_short_in_video g video audio_segment rs Hs Hw
              (initial_locals audio_segment)) as [Le P];
    [simpl; lia | constructor |].
  simpl in A.
  split.
  - destruct (iterate_silence_segments_run g rs video audio_segment false w)
      as [e1 E1].
    eexists. eexists. eexists.
    split; [|split].
    + rewrite E1. unfold plan.
      cbn [negb append_remaining clips adjusted_audio silence_amount].
      rewrite A. reflexivity.
    + apply Forall_app. split; [exact P|].
      constructor; [unfold in_video; simpl; lia | constructor].
    + rewrite map_app. now apply chained_snoc.
  - destruct (iterate_silence_segments_run g rs video audio_segment true w)
      as [e2 ->].
    unfold silence_removed. cbn [fst value_of option_map].
    rewrite (plan_silence_amount g video audio_segment true rs).
    rewrite <- (plan_silence_amount g video audio_segment false rs).
    unfold plan. cbn [negb append_remaining silence_amount snd].
    now rewrite A.
Qed.

(** Two silences of 300 and 400 ms under the default settings. *)
Lemma short_silences_are_never_cut_witness :
  (all_short defaults [(1000, 1300); (2000, 2400)] = true
   /\ starts_within defaults (duration (video_of 3000))
        [(1000, 1300); (2000, 2400)] = true
   /\ 0 <= duration (video_of 3000))
  /\ (exists (cs : list Clip) (a : Samples) (w1 : World unit),
        iterate_silence_segments defaults [(1000, 1300); (2000, 2400)]
          (video_of 3000) (repeat 0 3000) false silent_world
        = (Returned (cs, a, 0), w1)
        /\ Forall (in_video (video_of 3000)) cs
        /\ chained 0 (map bounds cs) (duration (video_of 3000)))
  /\ silence_removed
       (fst (iterate_silence_segments defaults [(1000, 1300); (2000, 2400)]
               (video_of 3000) (repeat 0 3000) true silent_world))
     = Some 0.
Proof.
  split; [repeat split; try reflexivity; vm_compute; discriminate|].
  apply (short_silences_are_never_cut defaults [(1000, 1300); (2000, 2400)]
           (video_of 3000) (repeat 0 3000) silent_world);
    try reflexivity; vm_compute; discriminate.
Defined.



Section TraceOfEdit.

Context {Ext : Type} {Audio : Type} `{AudioBuffer Audio}.

Variable g : Globals.
Variable env : Env Ext Audio.

Lemma printed_is_own (e : Event) : is_printed e = true -> own_files_only g e = true.
Proof. destruct e; simpl; intros E; try discriminate; reflexivity. Qed.

Lemma printed_is_no_render (e : Event) :
  is_printed e = true -> negb (is_render_call e) = true.
Proof. destruct e; simpl; intros E; try discriminate; reflexivity. Qed.

Lemma remove_temp_files_trace (P : Event -> bool) :
  P (Remove TEMP_EDITED_AUDIO_PATH) = true -> P (Remove TEMP_AUDIO_PATH) = true ->
  P (Printed Could_not_clean_up) = true ->
  adds_only P (remove_temp_files env).
Proof.
  intros P1 P2 P3. unfold remove_temp_files.
  apply adds_only_try; [|now apply adds_only_emit].
  apply adds_only_bind.
  { intros w. exists []. simpl. now rewrite app_nil_r. }
  intros b1 _. apply adds_only_bind.
  { destruct b1; [now apply adds_only_call | apply adds_only_ret]. }
  intros _ _. apply adds_only_bind.
  { intros w. exists []. simpl. now rewrite app_nil_r. }
  intros b2 _. destruct b2; [now apply adds_only_call | apply adds_only_ret].
Qed.

Lemma render_trace (rs : list (Z * Z)) (video : Video) (audio_segment : Audio) :
  adds_only (own_files_only g) (render g env rs video audio_segment).
Proof.
  unfold render. apply adds_only_bind.
  { eapply adds_only_weaken; [apply printed_is_own|].
    apply iterate_silence_segments_prints. }
  intros [[cs a] n] _.
  apply adds_only_bind; [now apply adds_only_call|]. intros _ _.
  apply adds_only_bind; [now apply adds_only_call|]. intros _ _.
  apply adds_only_bind; [now apply adds_only_call|]. intros _ _.
  apply adds_only_call. simpl. apply String.eqb_refl.
Qed.

(** Lines 86-117 up to the answer of the user, followed by any continuation
    [k] that keeps to [P]. *)
Lemma estimate_trace (P : Event -> bool) (video_path : string)
    (audio_segment : Audio) :
  (forall e, is_printed e = true -> P e = true) ->
  P (Open_video video_path) = true ->
  P (Detect_silence (SILENCE_THRESHOLD g) (SILENCE_DB_THRESHOLD g)) = true ->
  P Ask_user = true ->
  (forall rs video ans,
     (exists x, fst (input env x) = Returned ans) ->
     String.eqb (upper (strip ans)) "Y" = true ->
     adds_only P (render g env rs video audio_segment)) ->
  adds_only P (estimate_and_render g env video_path audio_segment).
Proof.
  intros Pp Po Pd Pa Pr. unfold estimate_and_render.
  apply adds_only_bind.
  { eapply adds_only_weaken; [exact Pp | apply verbose_print_prints]. }
  intros _ _. apply adds_only_bind; [now apply adds_only_call|].
  intros video _. apply adds_only_bind; [now apply adds_only_call|].
  intros rs _. apply adds_only_bind.
  { eapply adds_only_weaken; [exact Pp | apply verbose_print_prints]. }
  intros _ _. apply adds_only_bind.
  { eapply adds_only_weaken; [exact Pp | apply debug_print_prints]. }
  intros _ _. apply adds_only_bind.
  { eapply adds_only_weaken; [exact Pp | apply iterate_silence_segments_prints]. }
  intros r _. apply adds_only_bind; [apply adds_only_emit; now apply Pp|].
  intros _ _. apply adds_only_bind; [apply adds_only_emit; now apply Pp|].
  intros _ _. apply adds_only_bind; [now apply adds_only_call|].
  intros ans [w0 R].
  destruct (String.eqb (upper (strip ans)) "Y") eqn:Y; [|apply adds_only_ret].
  apply (Pr rs video ans); [|exact Y].
  exists (ext w0). unfold call in R.
  destruct (input env (ext w0)) as [o x]. exact R.
Qed.

End TraceOfEdit.

(** Whatever the collaborators do and whatever the user answers, a run of
    [edit_video_and_audio] removes no file other than the two temporary
    files, exports audio to and reads it back from the temporary edited file
    only, and writes video to [OUTPUT_PATH] only. *)
Theorem edit_touches_own_files_only {Ext Audio : Type} `{AudioBuffer Audio}
    (g : Globals) (env : Env Ext Audio) (video_path : string)
    (audio_segment : Audio) (w : World Ext) :
  exists evs : list Event,
    trace (snd (edit_video_and_audio g env video_path audio_segment w))
    = trace w ++ evs
    /\ forallb (own_files_only g) evs = true.
Proof.
  revert w. change (adds_only (own_files_only g)
                      (edit_video_and_audio g env video_path audio_segment)).
  unfold edit_video_and_audio. apply adds_only_bind.
  - apply estimate_trace; try reflexivity.
    + apply printed_is_own.
    + intros rs video ans _ _. apply render_trace.
  - intros _ _. apply remove_temp_files_trace; reflexivity.
Qed.

(** When every answer of the user is made of ASCII characters and is not Y
    once stripped and put in upper case, a run of [edit_video_and_audio]
    makes no call that renders: no clip is concatenated, no audio exported or
    reopened, no video written. *)
Theorem declined_run_renders_nothing {Ext Audio : Type} `{AudioBuffer Audio}
    (g : Globals) (env : Env Ext Audio) (video_path : string)
    (audio_segment : Audio) (w : World Ext) :
  (forall x ans, fst (input env x) = Returned ans ->
                 is_ascii ans = true
                 /\ String.eqb (upper (strip ans)) "Y" = false) ->
  exists evs : list Event,
    trace (snd (edit_video_and_audio g env video_path audio_segment w))
    = trace w ++ evs
    /\ existsb is_render_call evs = false.
Proof.
  intros Hno.
  assert (A : adds_only (fun e => negb (is_render_call e))
                (edit_video_and_audio g env video_path audio_segment)).
  { unfold edit_video_and_audio. apply adds_only_bind.
    - apply estimate_trace; try reflexivity.
      + apply printed_is_no_render.
      + intros rs video ans [x R] Y.
        rewrite (proj2 (Hno x ans R)) in Y. discriminate.
    - intros _ _. apply remove_temp_files_trace; reflexivity. }
  destruct (A w) as (evs & T & F). exists evs. split; [exact T|].
  clear -F. induction evs as [|e evs IH]; [reflexivity|].
  simpl in *. apply andb_prop in F. destruct F as [F1 F2].
  rewrite (IH F2). now destruct (is_render_call e).
Qed.

(** The user who answers n, in the scripted world. *)
Lemma declined_run_renders_nothing_witness :
  (forall x ans, fst (input refusing x) = Returned ans ->
                 is_ascii ans = true
                 /\ String.eqb (upper (strip ans)) "Y" = false)
  /\ exists evs : list Event,
       trace (snd (edit_video_and_audio defaults refusing "in.mp4" (repeat 0 3000)
                     (studio "n" true [])))
       = trace (studio "n" true []) ++ evs
       /\ existsb is_render_call evs = false.
Proof.
  assert (N : forall x ans, fst (input refusing x) = Returned ans ->
                            is_ascii ans = true
                            /\ String.eqb (upper (strip ans)) "Y" = false).
  { intros x ans E. simpl in E. injection E as <-. split; reflexivity. }
  split; [exact N|].
  exact (declined_run_renders_nothing defaults refusing "in.mp4" (repeat 0 3000)
           (studio "n" true []) N).
Defined.

(** Line 93 hands the list of silent ranges to [debug_print], which formats
    its first argument as a string. *)
Lemma edit_with_debug_on {Ext Audio : Type} `{AudioBuffer Audio}
    (g : Globals) (env : Env Ext Audio) (video_path : string)
    (audio_segment : Audio) (w : World Ext) (video : Video)
    (rs : list (Z * Z)) (x1 x2 : Ext) :
  DEBUG g = true ->
  VideoFileClip env video_path (ext w) = (Returned video, x1) ->
  detect_silence env audio_segment (SILENCE_THRESHOLD g) (SILENCE_DB_THRESHOLD g) x1
  = (Returned rs, x2) ->
  edit_video_and_audio g env video_path audio_segment w
  = (Raised AttributeError,
     {| ext := x2;
        trace :=
          trace w
          ++ (if VERBOSE g then [Printed Starting_edit] else [])
          ++ [Open_video video_path;
              Detect_silence (SILENCE_THRESHOLD g) (SILENCE_DB_THRESHOLD g)]
          ++ (if VERBOSE g then [Printed (Silences_found (List.length rs))]
              else []) |}).
Proof.
  intros HD HV HS.
  unfold edit_video_and_audio, estimate_and_render, bind, verbose_print,
    debug_print, print_formatted, print, emit, call, raise, ret, note.
  rewrite HD.
  destruct (VERBOSE g); cbn [ext trace]; rewrite HV; cbn [ext trace];
    rewrite HS; cbn [ext trace]; rewrite <- ?app_assoc; reflexivity.
Qed.

(** With debug output on, a run in which the video opens and the detector
    answers always ends with [AttributeError], raised by line 93: the user is
    not asked, nothing is rendered and nothing is removed; the trace holds
    the verbose lines, if any, and the two calls made. *)
Theorem debug_run_raises {Ext Audio : Type} `{AudioBuffer Audio}
    (g : Globals) (env : Env Ext Audio) (video_path : string)
    (audio_segment : Audio) (w : World Ext) (video : Video)
    (rs : list (Z * Z)) (x1 x2 : Ext) :
  DEBUG g = true ->
  VideoFileClip env video_path (ext w) = (Returned video, x1) ->
  detect_silence env audio_segment (SILENCE_THRESHOLD g) (SILENCE_DB_THRESHOLD g) x1
  = (Returned rs, x2) ->
  edit_video_and_audio g env video_path audio_segment w
  = (Raised AttributeError,
     {| ext := x2;
        trace :=
          trace w
          ++ (if VERBOSE g then [Printed Starting_edit] else [])
          ++ [Open_video video_path;
              Detect_silence (SILENCE_THRESHOLD g) (SILENCE_DB_THRESHOLD g)]
          ++ (if VERBOSE g then [Printed (Silences_found (List.length rs))]
              else []) |}).
Proof. intros HD HV HS. now apply (edit_with_debug_on g env video_path
                                     audio_segment w video rs x1 x2). Qed.

(** The scripted world with debug output on. *)
Lemma debug_run_raises_witness :
  (DEBUG debugging = true
   /\ VideoFileClip scripted "in.mp4" (ext (studio "y" true []))
      = (Returned (video_of 3000), ext (studio "y" true []))
   /\ detect_silence scripted (repeat 0 3000) (SILENCE_THRESHOLD debugging)
        (SILENCE_DB_THRESHOLD debugging) (ext (studio "y" true []))
      = (Returned [(1000, 2000)], ext (studio "y" true [])))
  /\ edit_video_and_audio debugging scripted "in.mp4" (repeat 0 3000)
       (studio "y" true [])
     = (Raised AttributeError,
        {| ext := ext (studio "y" true []);
           trace := [Open_video "in.mp4"; Detect_silence 700 (-40)] |}).
Proof.
  split; [repeat split; reflexivity|].
  apply (debug_run_raises debugging scripted "in.mp4" (repeat 0 3000)
           (studio "y" true []) (video_of 3000) [(1000, 2000)]
           (ext (studio "y" true [])) (ext (studio "y" true [])));
    reflexivity.
Defined.

(** The default settings on two silences. *)
Lemma plan_keeps_segments_in_order_witness :
  (PADDING_RIGHT defaults <= SILENCE_THRESHOLD defaults + 1
   /\ non_negative_config defaults = true
   /\ 0 <= duration (video_of 5000)
   /\ well_formed [(1000, 2000); (2100, 4000)] = true
   /\ within (duration (video_of 5000)) [(1000, 2000); (2100, 4000)] = true)
  /\ exists segs : list (Z * Z),
       kept_segments
         (fst (iterate_silence_segments defaults [(1000, 2000); (2100, 4000)]
                 (video_of 5000) (repeat 0 5000) false silent_world))
       = Some segs
       /\ segments_ok (duration (video_of 5000)) segs = true.
Proof.
  split.
  - repeat split; try reflexivity; vm_compute; discriminate.
  - apply (plan_keeps_segments_in_order defaults (video_of 5000) (repeat 0 5000));
      try reflexivity; vm_compute; discriminate.
Defined.



(** The [--debug] option cannot be given a false value other than the empty
    string: whatever non-empty string follows it, [False] included, debug
    output is on, and a run of [edit_video_and_audio] with the settings of
    that command line in which the video opens and the detector answers ends
    with [AttributeError] before the user is asked. *)
Theorem any_debug_value_fails {Ext Audio : Type} `{AudioBuffer Audio}
    (int : string -> option Z) (a : Args) (s : string) (g : Globals)
    (env : Env Ext Audio) (audio_segment : Audio) (w : World Ext)
    (video : Video) (rs : list (Z * Z)) (x1 x2 : Ext) :
  debug a = Some s -> s <> EmptyString ->
  parse_args int a = Some g ->
  VideoFileClip env (INPUT_PATH g) (ext w) = (Returned video, x1) ->
  detect_silence env audio_segment (SILENCE_THRESHOLD g) (SILENCE_DB_THRESHOLD g) x1
  = (Returned rs, x2) ->
  DEBUG g = true
  /\ INPUT_PATH g = input_path a
  /\ exists w1 : World Ext,
       edit_video_and_audio g env (INPUT_PATH g) audio_segment w
       = (Raised AttributeError, w1)
       /\ ext w1 = x2
       /\ existsb (fun e => match e with Ask_user => true | _ => false end)
            (trace w1)
          = existsb (fun e => match e with Ask_user => true | _ => false end)
              (trace w).
Proof.
  intros Hd Hs Hp HV HS.
  assert (D : DEBUG g = true /\ INPUT_PATH g = input_path a).
  { unfold parse_args in Hp. rewrite Hd in Hp.
    destruct (typed int 700 (silence_threshold a)); try discriminate.
    destruct (typed int 250 (padding_left a)); try discriminate.
    destruct (typed int 250 (padding_right a)); try discriminate.
    destruct (typed int (-40) (silence_db_threshold a)); try discriminate.
    destruct (typed (fun s0 => Some (py_bool s0)) false (verbose a));
      try discriminate.
    simpl in Hp. injection Hp as <-. simpl. split; [|reflexivity].
    unfold py_bool. destruct (String.eqb_spec s ""); [contradiction | reflexivity]. }
  destruct D as [D I]. split; [exact D|]. split; [exact I|].
  eexists. split; [apply (edit_with_debug_on g env (INPUT_PATH g) audio_segment w
                            video rs x1 x2 D HV HS)|].
  split; [reflexivity|].
  cbn [trace]. rewrite !existsb_app. simpl.
  destruct (VERBOSE g); simpl; now rewrite !orb_false_r.
Qed.

(** The command line [in.mp4 out.mp4 --debug False] in the scripted world. *)
Lemma any_debug_value_fails_witness :
  (debug debug_False = Some "False"%string
   /\ "False"%string <> EmptyString
   /\ parse_args (fun _ => None) debug_False = Some debugging)
  /\ DEBUG debugging = true
  /\ fst (edit_video_and_audio debugging scripted "in.mp4" (repeat 0 3000)
            (studio "y" true []))
     = Raised AttributeError.
Proof.
  split; [repeat split; try reflexivity; discriminate|].
  destruct (any_debug_value_fails (fun _ => None) debug_False "False" debugging
              scripted (repeat 0 3000) (studio "y" true []) (video_of 3000)
              [(1000, 2000)] (ext (studio "y" true [])) (ext (studio "y" true []))
              eq_refl ltac:(discriminate) eq_refl eq_refl eq_refl)
    as (D & _ & w1 & E & _).
  split; [exact D|]. exact (f_equal fst E).
Defined.

(** The scripted world with a user who answers n. *)
Lemma declined_run_returns_witness :
  (DEBUG defaults = false
   /\ VideoFileClip scripted "in.mp4" (ext (studio " n " true []))
      = (Returned (video_of 3000), ext (studio " n " true []))
   /\ detect_silence scripted (repeat 0 3000) (SILENCE_THRESHOLD defaults)
        (SILENCE_DB_THRESHOLD defaults) (ext (studio " n " true []))
      = (Returned [(1000, 2000)], ext (studio " n " true []))
   /\ input scripted (ext (studio " n " true []))
      = (Returned " n "%string, ext (studio " n " true []))
   /\ is_ascii " n " = true
   /\ String.eqb (upper (strip " n ")) "Y" = false)
  /\ exists w1 : World Script,
       estimate_and_render defaults scripted "in.mp4" (repeat 0 3000)
         (studio " n " true [])
       = (Returned tt, w1)
       /\ ext w1 = ext (studio " n " true []).
Proof.
  split; [repeat split; reflexivity|].
  apply (declined_run_returns defaults scripted "in.mp4" (repeat 0 3000)
           (studio " n " true []) (video_of 3000) [(1000, 2000)] " n "
           (ext (studio " n " true [])) (ext (studio " n " true []))
           (ext (studio " n " true [])));
    reflexivity.
Defined.
